(** * TrueNAS configuration backup: a shallow embedding of [backup.py]

    The development follows the source file top to bottom: Python string
    methods, the address normalisers ([build_ws_base], [build_http_base],
    [ws_api_url], [http_api_base]), credential resolution ([read_api_key]),
    the reply parser of [start_download_session], the fetcher
    ([download_file]), the retention pruner ([enforce_retention]) and the
    command line driver ([main]). *)

From Stdlib Require Import ZArith Lia Ascii Permutation Sorted.
From Stdlib Require Floats.SpecFloat.
From stdpp Require Import base option list sorting gmap strings.

Local Open Scope Z_scope.

(** ** Python [str] methods

    A [str] is modelled as a [string] whose characters are the code points
    below 256. *)
Module PyStr.

(** [str.isspace] on one code point below 256: TAB..CR, FS..US, space,
    NEL and NBSP. *)
Definition is_space (c : ascii) : bool :=
  let n := N_of_ascii c in
  ((9 <=? n) && (n <=? 13) || (28 <=? n) && (n <=? 32)
   || (n =? 133) || (n =? 160))%N.

Definition is_slash (c : ascii) : bool := Ascii.eqb c "/"%char.

(** [s.lstrip(chars)] with the character class given as a predicate. *)
Fixpoint lstrip (p : ascii -> bool) (s : string) : string :=
  match s with
  | EmptyString => EmptyString
  | String c r => if p c then lstrip p r else s
  end.

(** [s.rstrip(chars)]: every trailing character of the class goes. *)
Fixpoint rstrip (p : ascii -> bool) (s : string) : string :=
  match s with
  | EmptyString => EmptyString
  | String c r =>
      match rstrip p r with
      | EmptyString => if p c then EmptyString else String c EmptyString
      | r' => String c r'
      end
  end.

(** [s.strip()] *)
Definition strip (s : string) : string := rstrip is_space (lstrip is_space s).

(** [s.startswith(pre)] *)
Fixpoint startswith (s pre : string) {struct pre} : bool :=
  match pre, s with
  | EmptyString, _ => true
  | String _ _, EmptyString => false
  | String a pre', String b s' => Ascii.eqb a b && startswith s' pre'
  end.

(** [s.endswith(suf)] *)
Fixpoint endswith (s suf : string) : bool :=
  String.eqb s suf ||
  match s with
  | EmptyString => false
  | String _ r => endswith r suf
  end.

(** [s[n:]] for [n >= 0] *)
Fixpoint slice_from (n : nat) (s : string) : string :=
  match n, s with
  | O, _ => s
  | S n', String _ r => slice_from n' r
  | S _, EmptyString => EmptyString
  end.

(** [bool(s)] *)
Definition nonempty (s : string) : bool :=
  match s with EmptyString => false | String _ _ => true end.

End PyStr.
Import PyStr.

(** ** Address normalisers *)

Definition build_ws_base (host : string) : string :=
  let h := strip host in
  if startswith h "ws://" || startswith h "wss://" then
    rstrip is_slash h
  else if startswith h "http://" then
    "ws://" +:+ rstrip is_slash (slice_from (String.length "http://") h)
  else if startswith h "https://" then
    "wss://" +:+ rstrip is_slash (slice_from (String.length "https://") h)
  else
    "wss://" +:+ h.

Definition build_http_base (host : string) : string :=
  let h := strip host in
  if startswith h "http://" || startswith h "https://" then
    rstrip is_slash h
  else if startswith h "ws://" then
    "http://" +:+ rstrip is_slash (slice_from (String.length "ws://") h)
  else if startswith h "wss://" then
    "https://" +:+ rstrip is_slash (slice_from (String.length "wss://") h)
  else
    "https://" +:+ h.

Definition ws_api_url (host : string) : string :=
  let base := build_ws_base host in
  if endswith base "/api/current" then base else base +:+ "/api/current".

Definition http_api_base (host : string) : string := build_http_base host.

(** The URL that [download_file] hands to [requests.get]. *)
Definition full_url (host download_url : string) : string :=
  let base := http_api_base host in
  if startswith download_url "http://" || startswith download_url "https://"
  then download_url
  else base +:+ download_url.

(** ** Values of the remote protocol

    What [client.call] returns: the Python image of a JSON document. *)
#[local] Set Warnings "-register-all".
Inductive value :=
| VNone
| VBool (b : bool)
| VInt (n : Z)
| VFloat (f : SpecFloat.spec_float)
| VStr (s : string)
| VList (l : list value)
| VDict (d : gmap string value).

(** [bool(v)] *)
Definition truthy (v : value) : bool :=
  match v with
  | VNone => false
  | VBool b => b
  | VInt n => negb (n =? 0)
  | VFloat f => match f with SpecFloat.S754_zero _ => false | _ => true end
  | VStr s => nonempty s
  | VList l => match l with [] => false | _ :: _ => true end
  | VDict d => negb (Nat.eqb (size d) 0)
  end.

(** [a or b] *)
Definition py_or (a b : value) : value := if truthy a then a else b.

(** The first value of [vs] that is present, that is, truthy: what a chain
    [v1 or v2 or ...] selects when it selects a truthy value at all. *)
Definition first_present (vs : list value) : option value :=
  List.find truthy vs.

(** [d.get(k)] *)
Definition dict_get (d : gmap string value) (k : string) : value :=
  default VNone (d !! k).

(** ** Exceptions, the outside world and the effect monad *)

Record response := {
  status_code : Z;
  content : string;   (* the body as bytes *)
  text : string       (* the body decoded *)
}.

Inductive runtime_msg :=
| UnexpectedResponse (result : value)
| NoDownloadUrl.

(** Every exception the program can meet; all are subclasses of
    [Exception]. [HTTPError] carries the response it was raised for. *)
Inductive exn :=
| RuntimeError (m : runtime_msg)
| HTTPError (r : response)
| AttributeError (v : value)
| OSError (msg : string)
| RemoteError (msg : string).

(** [ssl=None] or the context built for [--no-verify-tls]. *)
Inductive ssl_ctx := SslNone | SslUnverified.

(** Answers of everything outside the process. *)
Record env := {
  environ_TRUENAS_API_KEY : option string;
  open_read : string -> exn + string;
  client_connect : string -> ssl_ctx -> option exn;
  call_login : string -> string -> exn + value;
  call_core_download : string -> bool -> exn + value;
  requests_get : string -> option value -> bool -> exn + response;
  mkdir_parents : string -> option exn;
  open_write : string -> option exn;
  now_timestamp : string;
  now_mtime : Z;
  created_unlink_err : option exn
}.

(** One entry of the output directory. [d_unlink_err] is what [unlink]
    raises on it, if anything. *)
Record dirent := {
  d_name : string;
  d_is_file : bool;
  d_mtime : Z;
  d_content : string;
  d_unlink_err : option exn
}.

Inductive event :=
| EvReadFile (path : string)
| EvConnect (uri : string) (ssl : ssl_ctx)
| EvLogin (api_key : string)
| EvCoreDownload (secretseed : bool)
| EvGet (url : string) (auth_token : option value) (verify : bool)
| EvMkdir (path : string)
| EvWrite (name : string)
| EvUnlink (name : string).

Inductive diag :=
| DiagNoKey
| DiagHTTP (status : Z) (body : string)
| DiagError (e : exn).

(** The mutable part: the entries of the output directory in listing order,
    the calls made so far, and both output streams. *)
Record world := {
  w_dir : list dirent;
  w_trace : list event;
  w_stdout : list string;
  w_stderr : list diag
}.

Definition M (A : Type) : Type := world -> (exn + A) * world.

Definition ret {A} (a : A) : M A := fun w => (inr a, w).
Definition raise {A} (e : exn) : M A := fun w => (inl e, w).
Definition bind {A B} (m : M A) (k : A -> M B) : M B :=
  fun w => match m w with
           | (inl e, w') => (inl e, w')
           | (inr a, w') => k a w'
           end.

Notation "'let*' x ':=' m 'in' k" := (bind m (fun x => k))
  (at level 10, x name, m at level 100, k at level 200, only parsing).

(** [try: m  except Exception as e: h e] *)
Definition try_except {A} (m : M A) (h : exn -> M A) : M A :=
  fun w => match m w with
           | (inl e, w') => h e w'
           | (inr a, w') => (inr a, w')
           end.

Definition lift_sum {A} (r : exn + A) : M A :=
  match r with inl e => raise e | inr a => ret a end.

Definition lift_err (r : option exn) : M unit :=
  match r with Some e => raise e | None => ret tt end.

Definition with_event (w : world) (ev : event) : world :=
  {| w_dir := w_dir w; w_trace := w_trace w ++ [ev];
     w_stdout := w_stdout w; w_stderr := w_stderr w |}.

Definition with_line (w : world) (line : string) : world :=
  {| w_dir := w_dir w; w_trace := w_trace w;
     w_stdout := w_stdout w ++ [line]; w_stderr := w_stderr w |}.

Definition with_diag (w : world) (d : diag) : world :=
  {| w_dir := w_dir w; w_trace := w_trace w;
     w_stdout := w_stdout w; w_stderr := w_stderr w ++ [d] |}.

Definition with_dir (w : world) (d : list dirent) : world :=
  {| w_dir := d; w_trace := w_trace w;
     w_stdout := w_stdout w; w_stderr := w_stderr w |}.

Definition log (ev : event) : M unit := fun w => (inr tt, with_event w ev).

Definition print (line : string) : M unit :=
  fun w => (inr tt, with_line w line).

Definition eprint (d : diag) : M unit := fun w => (inr tt, with_diag w d).

Definition get_dir : M (list dirent) := fun w => (inr (w_dir w), w).

Definition put_dir (d : list dirent) : M unit :=
  fun w => (inr tt, with_dir w d).

(** ** The program *)

(** An [Optional[str]] used as a condition: [None] and [''] are falsy. *)
Definition truthy_str (o : option string) : option string :=
  match o with
  | Some s => if nonempty s then Some s else None
  | None => None
  end.

(** [requests.Response.raise_for_status]: the library raises [HTTPError]
    for the client and server error classes, 400 to 599, and for no other
    status. *)
Definition raise_for_status (resp : response) : M unit :=
  if (400 <=? status_code resp) && (status_code resp <? 600)
  then raise (HTTPError resp) else ret tt.

(** [fnmatch] of a file name against [truenas_config_*.tar]. *)
Definition is_backup_name (n : string) : bool :=
  startswith n "truenas_config_" &&
  endswith (slice_from (String.length "truenas_config_") n) ".tar".

(** [sorted(files, key=mtime, reverse=True)]: descending, and stable. *)
Fixpoint insert_desc (x : dirent) (l : list dirent) : list dirent :=
  match l with
  | [] => [x]
  | y :: r => if d_mtime x <? d_mtime y then y :: insert_desc x r else x :: l
  end.

Definition sorted_mtime_desc (l : list dirent) : list dirent :=
  foldr insert_desc [] l.

Definition has_name (n : string) (e : dirent) : bool := String.eqb (d_name e) n.

(** [[f for f in Path(directory).glob('truenas_config_*.tar') if f.is_file()]] *)
Definition backups (d : list dirent) : list dirent :=
  List.filter (fun f => is_backup_name (d_name f) && d_is_file f) d.

(** Whether [unlink] of the name succeeds in the directory. *)
Definition unlink_ok (d : list dirent) (n : string) : bool :=
  match List.find (has_name n) d with
  | Some e => match d_unlink_err e with None => true | Some _ => false end
  | None => false
  end.

(** The directory after one guarded [unlink]. *)
Definition after_unlink (d : list dirent) (n : string) : list dirent :=
  if unlink_ok d n then List.filter (fun e => negb (has_name n e)) d else d.

(** Whether an entry bears the name of one of [olds]. *)
Definition named_in (olds : list dirent) (e : dirent) : bool :=
  existsb (fun o => has_name (d_name o) e) olds.

(** The order [sorted(..., reverse=True)] establishes on the key. *)
Definition newer_or_equal (x y : dirent) : Prop := d_mtime y <= d_mtime x.

(** [os.path.join(a, b)] for a relative [b]. *)
Definition path_join (a b : string) : string :=
  if negb (nonempty a) then b
  else if endswith a "/" then a +:+ b
  else a +:+ "/" +:+ b.

Record args := {
  host : string;
  out_dir : string;
  api_key : option string;
  api_key_file : option string;
  include_secrets : bool;
  no_verify_tls : bool;
  retention : Z
}.

(** The reply parser of [start_download_session]: lines 90 to 100. *)
Definition parse_reply (result : value) : exn + (value * value) :=
  let finish (dl_url token : value) :=
    if negb (truthy dl_url) then inl (RuntimeError NoDownloadUrl)
    else inr (dl_url, py_or token (VStr "")) in
  match result with
  | VDict d =>
      let dl_url := py_or (py_or (dict_get d "url") (dict_get d "result"))
                          (dict_get d "job_url") in
      let token := py_or (dict_get d "token") (dict_get d "auth_token") in
      finish dl_url token
  | VList l =>
      if (2 <=? length l)%nat then
        let dl_url := default VNone (l !! 1%nat) in
        let token := if (3 <=? length l)%nat then default VNone (l !! 2%nat)
                     else VNone in
        finish dl_url token
      else inl (RuntimeError (UnexpectedResponse result))
  | _ => inl (RuntimeError (UnexpectedResponse result))
  end.

Section Program.
Context (E : env).

Definition read_api_key (explicit_key api_key_file : option string)
  : M (option string) :=
  match truthy_str explicit_key with
  | Some k => ret (Some (strip k))
  | None =>
      match truthy_str api_key_file with
      | Some p =>
          let* _ := log (EvReadFile p) in
          let* c := lift_sum (open_read E p) in
          ret (Some (strip c))
      | None =>
          match truthy_str (environ_TRUENAS_API_KEY E) with
          | Some v => ret (Some (strip v))
          | None => ret None
          end
      end
  end.

Definition ensure_output_dir (path : string) : M unit :=
  let* _ := log (EvMkdir path) in
  lift_err (mkdir_parents E path).

Definition start_download_session
    (host api_key : string) (include_secrets verify_tls : bool)
  : M (value * value) :=
  let uri := ws_api_url host in
  let ssl := if startswith uri "wss://"
             then (if negb verify_tls then SslUnverified else SslNone)
             else SslNone in
  let* _ := log (EvConnect uri ssl) in
  let* _ := lift_err (client_connect E uri ssl) in
  let* _ := log (EvLogin api_key) in
  let* _ := lift_sum (call_login E uri api_key) in
  let* _ := log (EvCoreDownload include_secrets) in
  let* result := lift_sum (call_core_download E uri include_secrets) in
  lift_sum (parse_reply result).

Definition download_file
    (host : string) (download_url token : value) (verify_tls : bool)
  : M string :=
  match download_url with
  | VStr u =>
      let url := full_url host u in
      let params := if truthy token then Some token else None in
      let* _ := log (EvGet url params verify_tls) in
      let* resp := lift_sum (requests_get E url params verify_tls) in
      let* _ := raise_for_status resp in
      ret (content resp)
  | v => raise (AttributeError v)
  end.

(** [old.unlink()] *)
Definition unlink (name : string) : M unit :=
  let* _ := log (EvUnlink name) in
  let* d := get_dir in
  match List.find (has_name name) d with
  | None => raise (OSError "FileNotFoundError")
  | Some e =>
      match d_unlink_err e with
      | Some x => raise x
      | None => put_dir (List.filter (fun e' => negb (has_name name e')) d)
      end
  end.

(** The loop of lines 126 to 130. *)
Fixpoint prune (olds : list dirent) : M unit :=
  match olds with
  | [] => ret tt
  | old :: rest =>
      let* _ := try_except (unlink (d_name old)) (fun _ => ret tt) in
      prune rest
  end.

(** [directory] is the output directory, whose entries are [w_dir]. *)
Definition enforce_retention (directory : string) (retention : Z) : M unit :=
  if retention <=? 0 then ret tt
  else
    let* d := get_dir in
    let files := sorted_mtime_desc (backups d) in
    prune (drop (Z.to_nat retention) files).

(** [with open(out_path, 'wb') as f: f.write(content)] *)
Definition write_file (name content : string) : M unit :=
  let* _ := log (EvWrite name) in
  let* _ := lift_err (open_write E name) in
  let* d := get_dir in
  match List.find (has_name name) d with
  | Some e =>
      if d_is_file e then
        put_dir (map (fun x => if has_name name x
                               then {| d_name := name; d_is_file := true;
                                       d_mtime := now_mtime E;
                                       d_content := content;
                                       d_unlink_err := d_unlink_err x |}
                               else x) d)
      else raise (OSError "IsADirectoryError")
  | None =>
      put_dir (d ++ [{| d_name := name; d_is_file := true;
                        d_mtime := now_mtime E; d_content := content;
                        d_unlink_err := created_unlink_err E |}])
  end.

Definition backup_name : string :=
  "truenas_config_" +:+ now_timestamp E +:+ ".tar".

(** The body of the [try] block of [main]. *)
Definition attempt (a : args) (api_key : string) : M (option string) :=
  let verify_tls := negb (no_verify_tls a) in
  let* dl := start_download_session (host a) api_key
               (include_secrets a) verify_tls in
  let* c := download_file (host a) (fst dl) (snd dl) verify_tls in
  ret (Some c).

(** The [try] block with its two handlers; [None] stands for the
    handlers' [return 1]. *)
Definition fetch (a : args) (api_key : string) : M (option string) :=
  try_except
    (attempt a api_key)
    (fun e =>
       let* _ := match e with
                 | HTTPError resp =>
                     eprint (DiagHTTP (status_code resp) (text resp))
                 | _ => eprint (DiagError e)
                 end in
       ret None).

Definition main (a : args) : M Z :=
  let* key := read_api_key (api_key a) (api_key_file a) in
  match truthy_str key with
  | None =>
      let* _ := eprint DiagNoKey in
      ret 2
  | Some api_key =>
      let* _ := ensure_output_dir (out_dir a) in
      let* r := fetch a api_key in
      match r with
      | None => ret 1
      | Some content =>
          let out_path := path_join (out_dir a) backup_name in
          let* _ := write_file backup_name content in
          let* _ := print ("Wrote " +:+ out_path) in
          let* _ := enforce_retention (out_dir a) (retention a) in
          ret 0
      end
  end.

End Program.

(** What the interpreter makes of [raise SystemExit(main())]: the exit
    status [main] returned, or an uncaught exception, which ends the
    process with a traceback. *)
Inductive outcome :=
| Exit (code : Z)
| Traceback (e : exn).

Definition run (E : env) (a : args) (w : world) : outcome * world :=
  match main E a w with
  | (inr code, w') => (Exit code, w')
  | (inl e, w') => (Traceback e, w')
  end.

(** The diagnostic the handlers of [main] print for an exception. *)
Definition diag_of (e : exn) : diag :=
  match e with
  | HTTPError resp => DiagHTTP (status_code resp) (text resp)
  | _ => DiagError e
  end.

(** The calls that go to the appliance. *)
Definition is_remote (ev : event) : bool :=
  match ev with
  | EvConnect _ _ | EvLogin _ | EvCoreDownload _ | EvGet _ _ _ => true
  | _ => false
  end.

(** Which call an event records. *)
Definition event_kind (ev : event) : nat :=
  match ev with
  | EvReadFile _ => 0
  | EvConnect _ _ => 1
  | EvLogin _ => 2
  | EvCoreDownload _ => 3
  | EvGet _ _ _ => 4
  | EvMkdir _ => 5
  | EvWrite _ => 6
  | EvUnlink _ => 7
  end.

(** The kinds of the remote calls among the events, in order. *)
Definition remote_calls (t : list event) : list nat :=
  map event_kind (List.filter is_remote t).

(** A step that takes [w] to [w'] extends the trace by the events [l]. *)
Definition extends (w w' : world) (l : list event) : Prop :=
  w_trace w' = w_trace w ++ l.

(** The TLS context [start_download_session] builds for a URI. *)
Definition ssl_for (a : args) (uri : string) : ssl_ctx :=
  if no_verify_tls a && startswith uri "wss://" then SslUnverified else SslNone.

(** An event agrees with the command line on TLS: the connection goes to
    the normalised address with the context the flag asks for, and the
    fetch verifies certificates unless the flag is given. *)
Definition tls_consistent (a : args) (ev : event) : Prop :=
  match ev with
  | EvConnect uri ssl =>
      uri = ws_api_url (host a) /\ ssl = ssl_for a uri
  | EvGet _ _ verify => verify = negb (no_verify_tls a)
  | _ => True
  end.

(** An event carries a usable key: a login is made with a key that is not
    empty and has no white space around it. *)
Definition key_is_clean (ev : event) : Prop :=
  match ev with
  | EvLogin k => k <> "" /\ strip k = k
  | _ => True
  end.




(** A step that takes [w] to [w'] touches nothing but the trace. *)
Definition only_trace (w w' : world) : Prop :=
  w_dir w' = w_dir w /\ w_stdout w' = w_stdout w /\ w_stderr w' = w_stderr w.

(** ** A sample installation

    An appliance that accepts the key and answers the export call with a
    job id, a relative download URL and a token; the fetch is answered with
    status [st]. Used to run the program on concrete inputs. *)
Definition demo_env (st : Z) : env := {|
  environ_TRUENAS_API_KEY := Some "env-key";
  open_read := fun p =>
    if String.eqb p "key.txt" then inr " file-key "
    else if String.eqb p "blank.key" then inr "  "
    else inl (OSError "FileNotFoundError");
  client_connect := fun _ _ => None;
  call_login := fun _ _ => inr (VBool true);
  call_core_download := fun _ _ =>
    inr (VList [VInt 7; VStr "/_download/7"; VStr "tok"]);
  requests_get := fun _ _ _ =>
    inr {| status_code := st; content := "TAR"; text := "TAR" |};
  mkdir_parents := fun _ => None;
  open_write := fun _ => None;
  now_timestamp := "20261104_010203";
  now_mtime := 600;
  created_unlink_err := None
|}.

Definition demo_args (key key_file : option string) (keep : Z) : args := {|
  host := "truenas.local";
  out_dir := "/backups";
  api_key := key;
  api_key_file := key_file;
  include_secrets := false;
  no_verify_tls := false;
  retention := keep
|}.

Definition backup_file (name : string) (mtime : Z) (err : option exn) : dirent :=
  {| d_name := name; d_is_file := true; d_mtime := mtime;
     d_content := "TAR"; d_unlink_err := err |}.

Definition f1 := backup_file "truenas_config_20261030_000000.tar" 100 None.
Definition f2 := backup_file "truenas_config_20261031_000000.tar" 200 None.
Definition f3 := backup_file "truenas_config_20261101_000000.tar" 300 None.
Definition f4 := backup_file "truenas_config_20261102_000000.tar" 400 None.
Definition f5 := backup_file "truenas_config_20261103_000000.tar" 500 None.
Definition notes := backup_file "notes.txt" 50 None.

(** Five backups of distinct ages and one unrelated file, in no
    particular listing order. *)
Definition demo_dir : list dirent := [f3; f1; notes; f5; f2; f4].

(** A backup that cannot be unlinked, newer than [f1]. *)
Definition locked :=
  backup_file "truenas_config_20261101_120000.tar" 300 (Some (OSError "EPERM")).

Definition locked_dir : list dirent := [f1; locked].

(** The sample installation with a full disk. *)
Definition full_disk_env : env := {|
  environ_TRUENAS_API_KEY := None;
  open_read := open_read (demo_env 200);
  client_connect := client_connect (demo_env 200);
  call_login := call_login (demo_env 200);
  call_core_download := call_core_download (demo_env 200);
  requests_get := requests_get (demo_env 200);
  mkdir_parents := fun _ => None;
  open_write := fun _ => Some (OSError "ENOSPC");
  now_timestamp := "20261104_010203";
  now_mtime := 600;
  created_unlink_err := None
|}.

(** The sample installation with the appliance unreachable. *)
Definition offline_env : env := {|
  environ_TRUENAS_API_KEY := None;
  open_read := open_read (demo_env 200);
  client_connect := fun _ _ => Some (RemoteError "connection refused");
  call_login := call_login (demo_env 200);
  call_core_download := call_core_download (demo_env 200);
  requests_get := requests_get (demo_env 200);
  mkdir_parents := fun _ => None;
  open_write := fun _ => None;
  now_timestamp := "20261104_010203";
  now_mtime := 600;
  created_unlink_err := None
|}.

(** The sample installation answering the export call with a number
    where the download URL should be. *)
Definition numeric_url_env : env := {|
  environ_TRUENAS_API_KEY := None;
  open_read := open_read (demo_env 200);
  client_connect := fun _ _ => None;
  call_login := call_login (demo_env 200);
  call_core_download := fun _ _ => inr (VList [VInt 7; VInt 5]);
  requests_get := requests_get (demo_env 200);
  mkdir_parents := fun _ => None;
  open_write := fun _ => None;
  now_timestamp := "20261104_010203";
  now_mtime := 600;
  created_unlink_err := None
|}.

(** The sample installation with an output directory that cannot be
    created. *)
Definition readonly_env : env := {|
  environ_TRUENAS_API_KEY := None;
  open_read := open_read (demo_env 200);
  client_connect := fun _ _ => None;
  call_login := call_login (demo_env 200);
  call_core_download := call_core_download (demo_env 200);
  requests_get := requests_get (demo_env 200);
  mkdir_parents := fun _ => Some (OSError "EROFS");
  open_write := fun _ => None;
  now_timestamp := "20261104_010203";
  now_mtime := 600;
  created_unlink_err := None
|}.

Definition world_of (d : list dirent) : world :=
  {| w_dir := d; w_trace := []; w_stdout := []; w_stderr := [] |}.

(** * Properties *)

(** ** Strings *)
Section StringFacts.

Lemma app_cons c a b : String c a +:+ b = String c (a +:+ b).
Proof. reflexivity. Qed.

Lemma app_empty_l b : "" +:+ b = b.
Proof. reflexivity. Qed.

Lemma app_empty_r a : a +:+ "" = a.
Proof. induction a as [|c a IH]; [done|]. by rewrite app_cons, IH. Qed.

Lemma app_assoc' a b c : (a +:+ b) +:+ c = a +:+ (b +:+ c).
Proof. induction a as [|x a IH]; [done|]. by rewrite !app_cons, IH. Qed.

Lemma startswith_app pre r : startswith (pre +:+ r) pre = true.
Proof.
  induction pre as [|c pre IH]; [done|].
  rewrite app_cons. simpl. by rewrite Ascii.eqb_refl, IH.
Qed.

Lemma startswith_inv s pre :
  startswith s pre = true -> s = pre +:+ slice_from (String.length pre) s.
Proof.
  revert s. induction pre as [|c pre IH]; intros s H; [reflexivity|].
  destruct s as [|b s]; [done|]. simpl in H.
  apply andb_true_iff in H as [Hc Hs]. apply Ascii.eqb_eq in Hc as ->.
  rewrite app_cons. simpl. f_equal. by apply IH.
Qed.

Lemma endswith_unfold s suf :
  endswith s suf =
  String.eqb s suf
  || match s with EmptyString => false | String _ r => endswith r suf end.
Proof. by destruct s. Qed.

Lemma endswith_refl s : endswith s s = true.
Proof. by rewrite endswith_unfold, String.eqb_refl. Qed.

Lemma endswith_app_r a b suf :
  endswith b suf = true -> endswith (a +:+ b) suf = true.
Proof.
  intros H. induction a as [|c a IH]; [done|].
  rewrite app_cons, endswith_unfold, IH. apply orb_true_r.
Qed.

Lemma endswith_app p suf : endswith (p +:+ suf) suf = true.
Proof. apply endswith_app_r, endswith_refl. Qed.

Lemma endswith_inv s suf :
  endswith s suf = true -> exists p, s = p +:+ suf.
Proof.
  induction s as [|c s IH]; rewrite endswith_unfold; intros H.
  - rewrite orb_false_r in H. apply String.eqb_eq in H as <-. by exists "".
  - apply orb_true_iff in H as [H|H].
    + apply String.eqb_eq in H as <-. by exists "".
    + destruct (IH H) as [p ->]. by exists (String c p).
Qed.

Lemma rstrip_app p a b :
  rstrip p b <> "" -> rstrip p (a +:+ b) = a +:+ rstrip p b.
Proof.
  intros Hb. induction a as [|c a IH]; [done|].
  rewrite !app_cons. simpl. rewrite IH.
  destruct (a +:+ rstrip p b) eqn:Hab; [|done].
  destruct a; [|done]. by rewrite app_empty_l in Hab.
Qed.

Lemma rstrip_fixed_app p a b :
  rstrip p b = b -> b <> "" -> rstrip p (a +:+ b) = a +:+ b.
Proof. intros H Hne. rewrite rstrip_app; rewrite H; done. Qed.

End StringFacts.

(** ** The control-channel address *)
Section WsUrl.

Lemma rstrip_keeps_suffix p :
  rstrip is_slash (p +:+ "/api/current") = p +:+ "/api/current".
Proof. by apply rstrip_fixed_app. Qed.

(** Cutting a scheme off an address that ends with the suffix leaves the
    suffix in place once the new scheme is put in front, also when the
    suffix began inside the old scheme's slashes. *)
Lemma suffix_survives_scheme old new r :
  (old = "http://" /\ new = "ws://") \/ (old = "https://" /\ new = "wss://") ->
  endswith (old +:+ r) "/api/current" = true ->
  endswith (new +:+ rstrip is_slash r) "/api/current" = true.
Proof.
  intros Hs H. apply endswith_inv in H as [p Hp].
  assert (Hcase : r = "api/current" \/ exists q, r = q +:+ "/api/current").
  { destruct Hs as [[-> ->]|[-> ->]];
      repeat (destruct p as [|? p];
              [ first [ discriminate Hp
                      | left; by injection Hp
                      | right; exists ""; by injection Hp ]
              | rewrite ?app_cons in Hp; injection Hp as <- Hp ]);
      right; exists p; exact Hp. }
  destruct Hcase as [->|[q ->]].
  - destruct Hs as [[-> ->]|[-> ->]]; reflexivity.
  - rewrite rstrip_keeps_suffix. by apply endswith_app_r, endswith_app.
Qed.

Lemma build_ws_base_ws host :
  startswith (strip host) "ws://" || startswith (strip host) "wss://" = true ->
  build_ws_base host = rstrip is_slash (strip host).
Proof. unfold build_ws_base. by intros ->. Qed.

Lemma build_ws_base_http host r :
  strip host = "http://" +:+ r ->
  build_ws_base host = "ws://" +:+ rstrip is_slash r.
Proof. unfold build_ws_base. by intros ->. Qed.

Lemma build_ws_base_https host r :
  strip host = "https://" +:+ r ->
  build_ws_base host = "wss://" +:+ rstrip is_slash r.
Proof. unfold build_ws_base. by intros ->. Qed.

Lemma build_ws_base_keeps_scheme host sch r :
  sch = "ws://" \/ sch = "wss://" ->
  strip host = sch +:+ r -> rstrip is_slash r <> "" ->
  build_ws_base host = sch +:+ rstrip is_slash r.
Proof.
  intros Hs Hh Hr. rewrite build_ws_base_ws.
  - rewrite Hh. by apply rstrip_app.
  - rewrite Hh. destruct Hs as [-> | ->]; reflexivity.
Qed.

Lemma build_ws_base_suffix host :
  endswith (strip host) "/api/current" = true ->
  endswith (build_ws_base host) "/api/current" = true.
Proof.
  intros H. unfold build_ws_base.
  destruct (startswith (strip host) "ws://" || startswith (strip host) "wss://").
  { destruct (endswith_inv _ _ H) as [p ->].
    rewrite rstrip_keeps_suffix. apply endswith_app. }
  destruct (startswith (strip host) "http://") eqn:H1.
  { apply startswith_inv in H1. rewrite H1 in H.
    eapply suffix_survives_scheme; [|exact H]. by left. }
  destruct (startswith (strip host) "https://") eqn:H2.
  { apply startswith_inv in H2. rewrite H2 in H.
    eapply suffix_survives_scheme; [|exact H]. by right. }
  by apply endswith_app_r.
Qed.

End WsUrl.

(** C1. For each form of the host argument — bare host, [http://],
    [https://], [ws://], [wss://], read after [strip] — the control-channel
    base gets the documented scheme: [ws://] and [wss://] addresses pass
    through (only trailing slashes go, and the scheme stays as long as
    something but slashes follows it), [http://] becomes [ws://], and
    [https://] and a bare host become [wss://]. [ws_api_url] then ends with
    [/api/current]: the suffix is appended once when the base does not end
    with it and not at all when it does, which is the case whenever the
    given address ends with it. *)
Theorem ws_api_url_normalises (host : string) :
  let h := strip host in
  let base := build_ws_base host in
  (startswith h "ws://" || startswith h "wss://" = true ->
     base = rstrip is_slash h) /\
  (forall sch r, sch = "ws://" \/ sch = "wss://" ->
     h = sch +:+ r -> rstrip is_slash r <> "" ->
     base = sch +:+ rstrip is_slash r) /\
  (forall r, h = "http://" +:+ r -> base = "ws://" +:+ rstrip is_slash r) /\
  (forall r, h = "https://" +:+ r -> base = "wss://" +:+ rstrip is_slash r) /\
  (startswith h "ws://" = false -> startswith h "wss://" = false ->
   startswith h "http://" = false -> startswith h "https://" = false ->
     base = "wss://" +:+ h) /\
  endswith (ws_api_url host) "/api/current" = true /\
  (endswith base "/api/current" = false ->
     ws_api_url host = base +:+ "/api/current") /\
  (endswith base "/api/current" = true -> ws_api_url host = base) /\
  (endswith h "/api/current" = true -> ws_api_url host = base).
Proof.
  intros h base. subst h base. repeat split.
  - apply build_ws_base_ws.
  - intros sch r. apply build_ws_base_keeps_scheme.
  - intros r. apply build_ws_base_http.
  - intros r. apply build_ws_base_https.
  - unfold build_ws_base. by intros -> -> -> ->.
  - unfold ws_api_url.
    destruct (endswith (build_ws_base host) "/api/current") eqn:Hb; [done|].
    apply endswith_app.
  - unfold ws_api_url. by intros ->.
  - unfold ws_api_url. by intros ->.
  - intros H. apply build_ws_base_suffix in H. unfold ws_api_url. by rewrite H.
Qed.

Example ws_api_url_forms :
  ws_api_url "127.0.0.1" = "wss://127.0.0.1/api/current" /\
  ws_api_url "http://h" = "ws://h/api/current" /\
  ws_api_url "https://h" = "wss://h/api/current" /\
  ws_api_url "ws://h" = "ws://h/api/current" /\
  ws_api_url "wss://h" = "wss://h/api/current" /\
  ws_api_url "wss://h/api/current" = "wss://h/api/current" /\
  ws_api_url " https://h/api/current/ " = "wss://h/api/current".
Proof. repeat split. Qed.


(** ** The reply parser *)
Section Reply.

Lemma py_or_first_present a b :
  first_present [a; b] = if truthy (py_or a b) then Some (py_or a b) else None.
Proof.
  unfold first_present, py_or. simpl.
  destruct (truthy a) eqn:Ha; [by rewrite Ha|]. by destruct (truthy b).
Qed.

Lemma py_or3_first_present a b c :
  first_present [a; b; c] =
  if truthy (py_or (py_or a b) c) then Some (py_or (py_or a b) c) else None.
Proof.
  unfold first_present, py_or. simpl.
  destruct (truthy a) eqn:Ha; [by rewrite !Ha|].
  destruct (truthy b) eqn:Hb; [by rewrite !Hb|]. by destruct (truthy c).
Qed.

Lemma parse_reply_dict d :
  parse_reply (VDict d) =
  match first_present [dict_get d "url"; dict_get d "result";
                       dict_get d "job_url"] with
  | Some u =>
      inr (u, default (VStr "")
                (first_present [dict_get d "token"; dict_get d "auth_token"]))
  | None => inl (RuntimeError NoDownloadUrl)
  end.
Proof.
  rewrite py_or3_first_present, py_or_first_present. unfold parse_reply.
  destruct (truthy (py_or (py_or _ _) _)); [|done]. simpl.
  unfold py_or at 3. by destruct (truthy (py_or _ _)).
Qed.

Lemma parse_reply_list x u rest :
  parse_reply (VList (x :: u :: rest)) =
  if truthy u
  then inr (u, default (VStr "") (first_present (take 1 rest)))
  else inl (RuntimeError NoDownloadUrl).
Proof.
  unfold parse_reply. simpl. destruct (truthy u); [|done]. simpl.
  destruct rest as [|t rest]; [done|]. simpl.
  unfold py_or, first_present. simpl. by destruct (truthy t).
Qed.

End Reply.

(** C2. The reply parser of [start_download_session]. A value is present
    when it is truthy, as Python's [or] reads it: a key bound to [None],
    [''], [0], [False] or an empty container counts as absent. For a
    mapping the URL is the first present value under [url], [result],
    [job_url] and the token the first present one under [token],
    [auth_token]; for a sequence of at least two items the URL is item 1
    and the token item 2; a missing token is [''], and a missing URL or any
    other shape is a [RuntimeError]. When the connection, the login and the
    download call succeed, [start_download_session] returns exactly what
    the parser makes of the reply. *)
Theorem parse_reply_shapes :
  (forall d,
     parse_reply (VDict d) =
     match first_present [dict_get d "url"; dict_get d "result";
                          dict_get d "job_url"] with
     | Some u =>
         inr (u, default (VStr "")
                   (first_present [dict_get d "token"; dict_get d "auth_token"]))
     | None => inl (RuntimeError NoDownloadUrl)
     end) /\
  (forall x u rest,
     parse_reply (VList (x :: u :: rest)) =
     if truthy u
     then inr (u, default (VStr "") (first_present (take 1 rest)))
     else inl (RuntimeError NoDownloadUrl)) /\
  (forall l, (length l < 2)%nat ->
     parse_reply (VList l) = inl (RuntimeError (UnexpectedResponse (VList l)))) /\
  (forall v, (forall d, v <> VDict d) -> (forall l, v <> VList l) ->
     parse_reply v = inl (RuntimeError (UnexpectedResponse v))) /\
  parse_reply (VDict {[ "url" := VStr "/download/1"; "token" := VStr "abc" ]})
    = inr (VStr "/download/1", VStr "abc") /\
  parse_reply (VList [VStr "ok"; VStr "/download/2"])
    = inr (VStr "/download/2", VStr "") /\
  (forall E host key secrets verify w ssl logged result,
     ssl = (if startswith (ws_api_url host) "wss://"
            then if negb verify then SslUnverified else SslNone
            else SslNone) ->
     client_connect E (ws_api_url host) ssl = None ->
     call_login E (ws_api_url host) key = inr logged ->
     call_core_download E (ws_api_url host) secrets = inr result ->
     (start_download_session E host key secrets verify w).1 = parse_reply result).
Proof.
  split; [exact parse_reply_dict|]. split; [exact parse_reply_list|].
  split; [|split; [|split; [|split]]].
  - intros [|x [|u l]] Hl; simpl in Hl; [done|done|lia].
  - intros v Hd Hl. destruct v; try done.
    + by destruct (Hl l).
    + by destruct (Hd d).
  - vm_compute. reflexivity.
  - reflexivity.
  - intros E host key secrets verify w ssl logged result -> Hc Hlog Hdl.
    unfold start_download_session, bind, log. cbv beta zeta iota.
    rewrite Hc, Hlog, Hdl. simpl. by destruct (parse_reply result).
Qed.

(** ** The fetch address *)

(** C4. [download_file] uses an absolute URL as it is and puts the HTTP
    base in front of any other, and [build_http_base] maps the schemes as
    documented; but its bare-host branch keeps a trailing slash that every
    other branch strips: with host [truenas.local/] the relative URL
    [/download/1] resolves to an address with a doubled slash, while the
    same host written as a URL, or without the slash, resolves as
    documented. *)
Theorem full_url_bare_host_trailing_slash :
  (forall host u,
     startswith u "http://" || startswith u "https://" = true ->
     full_url host u = u) /\
  (forall host u,
     startswith u "http://" || startswith u "https://" = false ->
     full_url host u = build_http_base host +:+ u) /\
  (forall host r, strip host = "ws://" +:+ r ->
     build_http_base host = "http://" +:+ rstrip is_slash r) /\
  (forall host r, strip host = "wss://" +:+ r ->
     build_http_base host = "https://" +:+ rstrip is_slash r) /\
  (forall host,
     startswith (strip host) "http://" || startswith (strip host) "https://"
     = true ->
     build_http_base host = rstrip is_slash (strip host)) /\
  build_http_base "truenas.local/" = "https://truenas.local/" /\
  full_url "truenas.local/" "/download/1" = "https://truenas.local//download/1" /\
  build_http_base "https://truenas.local/" = "https://truenas.local" /\
  build_http_base "wss://truenas.local/" = "https://truenas.local" /\
  full_url "https://truenas.local/" "/download/1"
    = "https://truenas.local/download/1" /\
  full_url "truenas.local" "/download/1" = "https://truenas.local/download/1".
Proof.
  repeat split.
  - intros host u H. unfold full_url. by rewrite H.
  - intros host u H. unfold full_url. by rewrite H.
  - intros host r H. unfold build_http_base. by rewrite H.
  - intros host r H. unfold build_http_base. by rewrite H.
  - intros host H. unfold build_http_base. by rewrite H.
Qed.

(** ** Credentials *)
Section Credentials.
Context (E : env).

Lemma truthy_str_set s : s <> "" -> truthy_str (Some s) = Some s.
Proof. by destruct s. Qed.

Lemma read_api_key_explicit k file w :
  k <> "" -> read_api_key E (Some k) file w = (inr (Some (strip k)), w).
Proof. intros Hk. unfold read_api_key. by rewrite truthy_str_set. Qed.

Lemma read_api_key_file explicit p w :
  truthy_str explicit = None -> p <> "" ->
  read_api_key E explicit (Some p) w =
  (match open_read E p with
   | inr c => inr (Some (strip c))
   | inl e => inl e
   end, with_event w (EvReadFile p)).
Proof.
  intros He Hp. unfold read_api_key. rewrite He, truthy_str_set by done.
  unfold bind, log. cbv beta zeta iota.
  by destruct (open_read E p).
Qed.

Lemma read_api_key_environ explicit file w :
  truthy_str explicit = None -> truthy_str file = None ->
  read_api_key E explicit file w =
  (inr (strip <$> truthy_str (environ_TRUENAS_API_KEY E)), w).
Proof.
  intros He Hf. unfold read_api_key. rewrite He, Hf.
  by destruct (truthy_str (environ_TRUENAS_API_KEY E)).
Qed.

End Credentials.

(** C6. Credential resolution follows the priority [--api-key], then
    [--api-key-file], then [TRUENAS_API_KEY]. A source is set when it is
    given and not empty. The explicit key, when set, is returned stripped
    and nothing else is looked at; otherwise the key file, when set, is read
    and its contents returned stripped; otherwise the environment value,
    when set, is returned stripped; otherwise there is no key. With all
    three set the explicit key wins. *)
Theorem read_api_key_priority
    (E : env) (explicit file : option string) (w : world) :
  (forall k, explicit = Some k -> k <> "" ->
     read_api_key E explicit file w = (inr (Some (strip k)), w)) /\
  (truthy_str explicit = None ->
   forall p c, file = Some p -> p <> "" -> open_read E p = inr c ->
     read_api_key E explicit file w
     = (inr (Some (strip c)), with_event w (EvReadFile p))) /\
  (truthy_str explicit = None -> truthy_str file = None ->
   forall v, environ_TRUENAS_API_KEY E = Some v -> v <> "" ->
     read_api_key E explicit file w = (inr (Some (strip v)), w)) /\
  (truthy_str explicit = None -> truthy_str file = None ->
   truthy_str (environ_TRUENAS_API_KEY E) = None ->
     read_api_key E explicit file w = (inr None, w)) /\
  read_api_key (demo_env 200) (Some " cli-key ") (Some "key.txt") w
    = (inr (Some "cli-key"), w).
Proof.
  repeat split.
  - intros k -> Hk. by apply read_api_key_explicit.
  - intros He p c -> Hp Hc. rewrite read_api_key_file by done. by rewrite Hc.
  - intros He Hf v Hv Hne. rewrite read_api_key_environ by done.
    by rewrite Hv, truthy_str_set.
  - intros He Hf Hv. rewrite read_api_key_environ by done. by rewrite Hv.
Qed.

(** C10. Once [--api-key-file] is given (and [--api-key] is not), the
    environment is out of the picture: if the file's contents strip to the
    empty string the run ends with exit status 2, whatever
    [TRUENAS_API_KEY] holds. An empty [--api-key] behaves like an absent
    one and falls through to the file and then the environment. *)
Theorem key_file_shadows_environ :
  (forall E a w p c,
     truthy_str (api_key a) = None ->
     api_key_file a = Some p -> p <> "" ->
     open_read E p = inr c -> strip c = "" ->
     read_api_key E (api_key a) (api_key_file a) w
       = (inr (Some ""), with_event w (EvReadFile p)) /\
     run E a w = (Exit 2, with_diag (with_event w (EvReadFile p)) DiagNoKey)) /\
  (forall E file w,
     read_api_key E (Some "") file w = read_api_key E None file w) /\
  (forall E w v, environ_TRUENAS_API_KEY E = Some v -> v <> "" ->
     read_api_key E (Some "") None w = (inr (Some (strip v)), w)) /\
  environ_TRUENAS_API_KEY (demo_env 200) = Some "env-key" /\
  run (demo_env 200) (demo_args None (Some "blank.key") 14) (world_of [])
    = (Exit 2, with_diag (with_event (world_of []) (EvReadFile "blank.key"))
                 DiagNoKey) /\
  (read_api_key (demo_env 200) (Some "") (Some "key.txt") (world_of [])).1
    = inr (Some "file-key") /\
  (read_api_key (demo_env 200) (Some "") None (world_of [])).1
    = inr (Some "env-key").
Proof.
  split; [|repeat split].
  - intros E a w p c He Hf Hp Hc Hs.
    assert (Hr : read_api_key E (api_key a) (api_key_file a) w
                 = (inr (Some ""), with_event w (EvReadFile p))).
    { rewrite Hf, read_api_key_file by done. by rewrite Hc, Hs. }
    split; [exact Hr|].
    unfold run, main, bind. by rewrite Hr.
  - intros E w v Hv Hne. rewrite read_api_key_environ by done.
    by rewrite Hv, truthy_str_set.
Qed.

(** ** Retention *)
Section Sorting.

Lemma insert_desc_perm x l : insert_desc x l ≡ₚ x :: l.
Proof.
  induction l as [|y r IH]; simpl; [done|].
  destruct (d_mtime x <? d_mtime y); [|done].
  rewrite IH. apply perm_swap.
Qed.

Lemma sorted_mtime_desc_perm l : sorted_mtime_desc l ≡ₚ l.
Proof.
  induction l as [|x l IH]; simpl; [done|].
  by rewrite insert_desc_perm, IH.
Qed.

Lemma insert_desc_sorted x l :
  StronglySorted newer_or_equal l ->
  StronglySorted newer_or_equal (insert_desc x l).
Proof.
  induction 1 as [|y r Hr IH Hy]; simpl; [repeat constructor|].
  destruct (Z.ltb_spec (d_mtime x) (d_mtime y)) as [Hlt|Hge].
  - constructor; [done|].
    rewrite insert_desc_perm. constructor; [|done].
    unfold newer_or_equal. lia.
  - constructor; [by constructor|].
    constructor; [exact Hge|].
    eapply Forall_impl; [exact Hy|]. unfold newer_or_equal. intros; lia.
Qed.

Lemma sorted_mtime_desc_sorted l :
  StronglySorted newer_or_equal (sorted_mtime_desc l).
Proof.
  induction l as [|x l IH]; simpl; [constructor|].
  by apply insert_desc_sorted.
Qed.

Lemma kept_newer_than_dropped n l k o :
  k ∈ take n (sorted_mtime_desc l) -> o ∈ drop n (sorted_mtime_desc l) ->
  d_mtime o <= d_mtime k.
Proof.
  intros Hk Ho.
  pose proof (sorted_mtime_desc_sorted l) as Hs.
  rewrite <- (take_drop n (sorted_mtime_desc l)) in Hs.
  exact (StronglySorted_app_1_elem_of _ _ _ _ _ Hs Hk Ho).
Qed.

Lemma filter_perm {A} (f : A -> bool) (l1 l2 : list A) :
  l1 ≡ₚ l2 -> List.filter f l1 ≡ₚ List.filter f l2.
Proof.
  induction 1 as [|x l1 l2 _ IH|x y l|l1 l2 l3 _ IH1 _ IH2]; simpl.
  - done.
  - destruct (f x); by rewrite IH.
  - destruct (f x), (f y); try done. apply perm_swap.
  - by rewrite IH1.
Qed.

End Sorting.

Section Pruning.


Lemma has_name_eq n e : has_name n e = true <-> d_name e = n.
Proof. apply String.eqb_eq. Qed.

Lemma guarded_unlink_run n w :
  try_except (unlink n) (fun _ => ret tt) w
  = (inr tt, with_dir (with_event w (EvUnlink n)) (after_unlink (w_dir w) n)).
Proof.
  unfold try_except, unlink, bind, log, get_dir, after_unlink, unlink_ok.
  cbv beta zeta iota. simpl.
  destruct (List.find (has_name n) (w_dir w)) as [e|]; [|done].
  by destruct (d_unlink_err e).
Qed.

Lemma prune_run olds w :
  prune olds w
  = (inr tt,
     {| w_dir := foldl after_unlink (w_dir w) (map d_name olds);
        w_trace := w_trace w ++ map (fun o => EvUnlink (d_name o)) olds;
        w_stdout := w_stdout w; w_stderr := w_stderr w |}).
Proof.
  revert w. induction olds as [|o olds IH]; intros w.
  - simpl. rewrite app_nil_r. by destruct w.
  - simpl. unfold bind. rewrite guarded_unlink_run, IH. simpl.
    by rewrite <- app_assoc.
Qed.

Lemma find_filter_other m n d :
  m <> n ->
  List.find (has_name m) (List.filter (fun e => negb (has_name n e)) d)
  = List.find (has_name m) d.
Proof.
  intros Hne. induction d as [|e d IH]; simpl; [done|].
  destruct (has_name n e) eqn:Hn; simpl.
  - destruct (has_name m e) eqn:Hm; [|done].
    apply has_name_eq in Hn, Hm. congruence.
  - by rewrite IH.
Qed.

Lemma unlink_ok_filter_other m n d :
  m <> n ->
  unlink_ok (List.filter (fun e => negb (has_name n e)) d) m = unlink_ok d m.
Proof. intros Hne. unfold unlink_ok. by rewrite find_filter_other. Qed.

Lemma filter_ext_elem {A} (f g : A -> bool) l :
  (forall x, x ∈ l -> f x = g x) -> List.filter f l = List.filter g l.
Proof.
  induction l as [|x l IH]; intros H; simpl; [done|].
  rewrite (H x) by left. rewrite IH; [done|].
  intros y Hy. apply H. by right.
Qed.

Lemma filter_twice {A} (f g : A -> bool) l :
  List.filter f (List.filter g l) = List.filter (fun x => g x && f x) l.
Proof.
  induction l as [|x l IH]; simpl; [done|].
  destruct (g x); simpl; [|done]. destruct (f x); by rewrite IH.
Qed.

Lemma existsb_ext_all {A} (f g : A -> bool) l :
  (forall x, f x = g x) -> existsb f l = existsb g l.
Proof. intros H. induction l as [|x l IH]; simpl; [done|]. by rewrite H, IH. Qed.

(** The directory after the whole loop: an entry goes exactly when its
    name is one of those tried and [unlink] succeeds on that name. *)
Lemma foldl_after_unlink d names :
  foldl after_unlink d names
  = List.filter
      (fun e => negb (existsb (fun n => has_name n e && unlink_ok d n) names)) d.
Proof.
  revert d. induction names as [|n names IH]; intros d; simpl.
  - induction d as [|e d IHd]; simpl; [done|]. by rewrite <- IHd.
  - rewrite IH. unfold after_unlink.
    destruct (unlink_ok d n) eqn:Hok.
    + rewrite filter_twice. apply filter_ext_elem. intros e _.
      destruct (has_name n e) eqn:Hn; simpl; [done|]. f_equal.
      apply existsb_ext_all. intros m.
      destruct (has_name m e) eqn:Hm; simpl; [|done].
      apply unlink_ok_filter_other.
      apply has_name_eq in Hm. intros ->.
      apply has_name_eq in Hm. congruence.
    + apply filter_ext_elem. intros e _.
      by rewrite andb_false_r.
Qed.

Lemma foldl_after_unlink_all_ok d olds :
  (forall o, o ∈ olds -> unlink_ok d (d_name o) = true) ->
  foldl after_unlink d (map d_name olds)
  = List.filter (fun e => negb (named_in olds e)) d.
Proof.
  intros Hok. rewrite foldl_after_unlink. apply filter_ext_elem.
  intros e _. f_equal. unfold named_in.
  clear -Hok. induction olds as [|o olds IH]; simpl; [done|].
  rewrite (Hok o) by left. rewrite andb_true_r. f_equal.
  apply IH. intros o' Ho'. apply Hok. by right.
Qed.

End Pruning.

Section Retention.

Lemma enforce_retention_off directory n w :
  n <= 0 -> enforce_retention directory n w = (inr tt, w).
Proof.
  intros Hn. unfold enforce_retention.
  by destruct (Z.leb_spec n 0); [|lia].
Qed.

Lemma enforce_retention_on directory n w :
  0 < n ->
  enforce_retention directory n w
  = prune (drop (Z.to_nat n) (sorted_mtime_desc (backups (w_dir w)))) w.
Proof.
  intros Hn. unfold enforce_retention.
  by destruct (Z.leb_spec n 0); [lia|].
Qed.

Lemma elem_of_backups e d :
  e ∈ backups d <->
  e ∈ d /\ is_backup_name (d_name e) = true /\ d_is_file e = true.
Proof.
  unfold backups. rewrite !list_elem_of_In, List.filter_In, andb_true_iff.
  tauto.
Qed.

End Retention.

(** C3. The retention pruner. With a count of zero or less nothing
    happens. With a positive count [n] the files considered are exactly the
    regular files of the directory whose name matches
    [truenas_config_*.tar]; they are put in descending order of
    modification time; the first [n] are kept, so every kept file is at
    least as new as every other one; [unlink] is called on each of the
    others, in that order, and on nothing else; and when these calls
    succeed the others are gone while every other entry of the directory
    stays. On five backups of distinct ages a count of 3 leaves the three
    newest and removes the two oldest, and a count of 0 leaves all five. *)
Theorem enforce_retention_prunes (directory : string) (n : Z) (w : world) :
  let files := sorted_mtime_desc (backups (w_dir w)) in
  let kept := take (Z.to_nat n) files in
  let olds := drop (Z.to_nat n) files in
  let after := enforce_retention directory n w in
  (n <= 0 -> after = (inr tt, w)) /\
  (0 < n ->
     files ≡ₚ backups (w_dir w) /\
     (forall e, e ∈ files <->
        e ∈ w_dir w /\ is_backup_name (d_name e) = true /\ d_is_file e = true) /\
     StronglySorted newer_or_equal files /\
     files = kept ++ olds /\
     length kept = Nat.min (Z.to_nat n) (length files) /\
     (forall k o, k ∈ kept -> o ∈ olds -> d_mtime o <= d_mtime k) /\
     after.1 = inr tt /\
     w_trace after.2 = w_trace w ++ map (fun o => EvUnlink (d_name o)) olds /\
     ((forall o, o ∈ olds -> unlink_ok (w_dir w) (d_name o) = true) ->
        w_dir after.2 = List.filter (fun e => negb (named_in olds e)) (w_dir w))) /\
  w_dir (enforce_retention "/backups" 3 (world_of demo_dir)).2
    = [f3; notes; f5; f4] /\
  enforce_retention "/backups" 0 (world_of demo_dir)
    = (inr tt, world_of demo_dir).
Proof.
  intros files kept olds after. subst after.
  split; [apply enforce_retention_off|]. split; [|split; reflexivity].
  intros Hn. rewrite enforce_retention_on by done.
  fold files. fold olds. rewrite prune_run. simpl.
  split; [apply sorted_mtime_desc_perm|].
  split.
  { intros e. unfold files. rewrite sorted_mtime_desc_perm.
    apply elem_of_backups. }
  split; [apply sorted_mtime_desc_sorted|].
  split; [symmetry; apply take_drop|].
  split; [apply length_take|].
  split; [intros k o; apply kept_newer_than_dropped|].
  split; [done|]. split; [done|].
  apply foldl_after_unlink_all_ok.
Qed.

(** ** The whole run *)
Section Run.
Context (E : env).

Lemma enforce_retention_returns directory n w :
  (enforce_retention directory n w).1 = inr tt.
Proof.
  destruct (Z.le_gt_cases n 0) as [Hn|Hn].
  - by rewrite enforce_retention_off.
  - rewrite enforce_retention_on by lia. by rewrite prune_run.
Qed.

Lemma fetch_run a k w :
  fetch E a k w =
  match attempt E a k w with
  | (inr r, w') => (inr r, w')
  | (inl e, w') => (inr None, with_diag w' (diag_of e))
  end.
Proof.
  unfold fetch, try_except.
  destruct (attempt E a k w) as [[e|r] w']; [|done].
  unfold bind, eprint, diag_of. by destruct e.
Qed.

Lemma main_run a w :
  main E a w =
  match read_api_key E (api_key a) (api_key_file a) w with
  | (inl e, w0) => (inl e, w0)
  | (inr key, w0) =>
      match truthy_str key with
      | None => (inr 2, with_diag w0 DiagNoKey)
      | Some k =>
          match ensure_output_dir E (out_dir a) w0 with
          | (inl e, w1) => (inl e, w1)
          | (inr _, w1) =>
              match fetch E a k w1 with
              | (inl e, w2) => (inl e, w2)
              | (inr None, w2) => (inr 1, w2)
              | (inr (Some c), w2) =>
                  match write_file E (backup_name E) c w2 with
                  | (inl e, w3) => (inl e, w3)
                  | (inr _, w3) =>
                      (inr 0,
                       (enforce_retention (out_dir a) (retention a)
                          (with_line w3
                             ("Wrote " +:+ path_join (out_dir a) (backup_name E)))).2)
                  end
              end
          end
      end
  end.
Proof.
  unfold main, bind.
  destruct (read_api_key _ _ _ _) as [[e|key] w0]; [done|].
  destruct (truthy_str key) as [k|]; [|done].
  destruct (ensure_output_dir _ _ _) as [[e|[]] w1]; [done|].
  destruct (fetch _ _ _ _) as [[e|[c|]] w2]; [done| |done].
  destruct (write_file _ _ _ _) as [[e|[]] w3]; [done|].
  unfold print. cbv beta zeta iota.
  pose proof (enforce_retention_returns (out_dir a) (retention a)
    (with_line w3 ("Wrote " +:+ path_join (out_dir a) (backup_name E)))) as Hr.
  destruct (enforce_retention _ _ _) as [r w4]. simpl in Hr. by subst r.
Qed.

End Run.

Section Bound.

Lemma find_has_name_elem o d :
  o ∈ d -> exists e, List.find (has_name (d_name o)) d = Some e /\ e ∈ d.
Proof.
  induction 1 as [o d|o x d _ IH]; simpl.
  - exists o. unfold has_name at 1. rewrite String.eqb_refl.
    split; [done|left].
  - destruct (has_name (d_name o) x).
    + exists x. split; [done|left].
    + destruct IH as (e & -> & He). exists e. split; [done|by right].
Qed.

Lemma unlink_ok_of_unlocked d o :
  (forall e, e ∈ d -> d_unlink_err e = None) -> o ∈ d ->
  unlink_ok d (d_name o) = true.
Proof.
  intros Hd Ho. unfold unlink_ok.
  destruct (find_has_name_elem o d Ho) as (e & -> & He). by rewrite (Hd e He).
Qed.

Lemma named_in_self olds o : o ∈ olds -> named_in olds o = true.
Proof.
  unfold named_in. induction 1 as [o olds|o x olds _ IH]; simpl.
  - unfold has_name. by rewrite String.eqb_refl.
  - rewrite IH. apply orb_true_r.
Qed.

Lemma filter_none {A} (f : A -> bool) l :
  (forall x, x ∈ l -> f x = false) -> List.filter f l = [].
Proof.
  induction l as [|x l IH]; intros H; simpl; [done|].
  rewrite (H x) by left. apply IH. intros y Hy. apply H. by right.
Qed.

Lemma filter_length_le {A} (f : A -> bool) l :
  (length (List.filter f l) <= length l)%nat.
Proof. induction l as [|x l IH]; simpl; [done|]. destruct (f x); simpl; lia. Qed.

Lemma backups_filter f d :
  backups (List.filter f d) = List.filter f (backups d).
Proof.
  unfold backups. rewrite !filter_twice. apply filter_ext_elem.
  intros e _. apply andb_comm.
Qed.

(** When no entry of the directory resists [unlink], a positive count
    bounds the backups left by the pruner. *)
Lemma enforce_retention_bound directory n w :
  0 < n -> (forall e, e ∈ w_dir w -> d_unlink_err e = None) ->
  (length (backups (w_dir (enforce_retention directory n w).2))
   <= Z.to_nat n)%nat.
Proof.
  intros Hn Hd.
  set (files := sorted_mtime_desc (backups (w_dir w))).
  set (olds := drop (Z.to_nat n) files).
  set (kept := take (Z.to_nat n) files).
  assert (Hperm : files ≡ₚ backups (w_dir w)) by apply sorted_mtime_desc_perm.
  assert (Hsplit : files = kept ++ olds) by (symmetry; apply take_drop).
  rewrite enforce_retention_on by done. fold files. fold olds.
  rewrite prune_run. simpl.
  rewrite foldl_after_unlink_all_ok.
  - rewrite backups_filter.
    rewrite <- (Permutation_length
                  (filter_perm (fun e => negb (named_in olds e)) _ _ Hperm)).
    rewrite Hsplit, List.filter_app, length_app.
    rewrite (filter_none _ olds).
    + pose proof (filter_length_le (fun e => negb (named_in olds e)) kept).
      assert (length kept <= Z.to_nat n)%nat
        by (unfold kept; rewrite length_take; lia).
      simpl. lia.
    + intros o Ho. by rewrite named_in_self.
  - intros o Ho. apply unlink_ok_of_unlocked; [done|].
    assert (Hf : o ∈ files) by (rewrite Hsplit; apply elem_of_app; by right).
    unfold files in Hf. rewrite sorted_mtime_desc_perm in Hf.
    by apply elem_of_backups in Hf as [? _].
Qed.

End Bound.

(** ** What each step leaves of the directory *)
Section Frames.
Context (E : env).

Lemma lift_sum_run {A} (r : exn + A) w : lift_sum r w = (r, w).
Proof. by destruct r. Qed.

Lemma lift_err_run r w :
  lift_err r w = (match r with Some e => inl e | None => inr tt end, w).
Proof. by destruct r. Qed.

Lemma read_api_key_dir x y w : w_dir (read_api_key E x y w).2 = w_dir w.
Proof.
  unfold read_api_key, bind, log.
  destruct (truthy_str x); [done|]. destruct (truthy_str y) as [p|].
  - cbv beta zeta iota. rewrite lift_sum_run. by destruct (open_read E p).
  - by destruct (truthy_str (environ_TRUENAS_API_KEY E)).
Qed.

Lemma ensure_output_dir_run p w :
  ensure_output_dir E p w
  = (match mkdir_parents E p with Some e => inl e | None => inr tt end,
     with_event w (EvMkdir p)).
Proof. unfold ensure_output_dir, bind, log. apply lift_err_run. Qed.

Lemma ensure_output_dir_dir p w : w_dir (ensure_output_dir E p w).2 = w_dir w.
Proof. by rewrite ensure_output_dir_run. Qed.

Lemma start_download_session_dir h k s v w :
  w_dir (start_download_session E h k s v w).2 = w_dir w.
Proof.
  unfold start_download_session, bind, log. cbv beta zeta iota.
  rewrite lift_err_run. destruct (client_connect E _ _); [done|].
  rewrite lift_sum_run. destruct (call_login E _ _); [done|].
  rewrite lift_sum_run. destruct (call_core_download E _ _); [done|].
  by rewrite lift_sum_run.
Qed.

Lemma download_file_dir h u t v w :
  w_dir (download_file E h u t v w).2 = w_dir w.
Proof.
  unfold download_file, raise_for_status, bind, log.
  destruct u; try done. cbv beta zeta iota.
  rewrite lift_sum_run. destruct (requests_get E _ _ _) as [e|resp]; [done|].
  by destruct ((400 <=? status_code resp) && (status_code resp <? 600)).
Qed.

Lemma attempt_dir a k w : w_dir (attempt E a k w).2 = w_dir w.
Proof.
  unfold attempt, bind. cbv beta zeta iota.
  pose proof (start_download_session_dir (host a) k (include_secrets a)
                (negb (no_verify_tls a)) w) as Hs.
  destruct (start_download_session _ _ _ _ _ _) as [[e|dl] w1]; [done|].
  pose proof (download_file_dir (host a) dl.1 dl.2 (negb (no_verify_tls a)) w1)
    as Hd.
  destruct (download_file _ _ _ _ _ _) as [[e|c] w2]; simpl in *; congruence.
Qed.

Lemma fetch_dir a k w : w_dir (fetch E a k w).2 = w_dir w.
Proof.
  rewrite fetch_run. pose proof (attempt_dir a k w) as Ha.
  by destruct (attempt E a k w) as [[e|r] w'].
Qed.

Lemma write_file_unlocked n c w :
  (forall e, e ∈ w_dir w -> d_unlink_err e = None) ->
  created_unlink_err E = None ->
  forall e, e ∈ w_dir (write_file E n c w).2 -> d_unlink_err e = None.
Proof.
  intros Hd Hc e.
  unfold write_file, bind, log, get_dir, put_dir.
  cbv beta zeta iota. rewrite lift_err_run.
  destruct (open_write E n); [exact (Hd e)|]. simpl.
  destruct (List.find (has_name n) (w_dir w)) as [x|]; simpl.
  - destruct (d_is_file x); simpl; [|exact (Hd e)].
    intros He. apply list_elem_of_fmap in He as (y & -> & Hy).
    destruct (has_name n y); simpl; by apply Hd.
  - intros He. apply elem_of_app in He as [He|He]; [by apply Hd|].
    apply list_elem_of_singleton in He as ->. exact Hc.
Qed.

End Frames.

(** ** Retention across runs *)

(** C7, as amended. After a successful run with a positive retention
    count, at most that many backups remain in the output directory,
    provided no entry of the directory resists [unlink] (the new file
    included). *)
Theorem retention_bound_after_run (E : env) (a : args) (w w' : world) :
  0 < retention a ->
  (forall e, e ∈ w_dir w -> d_unlink_err e = None) ->
  created_unlink_err E = None ->
  run E a w = (Exit 0, w') ->
  (length (backups (w_dir w')) <= Z.to_nat (retention a))%nat.
Proof.
  intros Hn Hd Hc Hrun. unfold run in Hrun. rewrite main_run in Hrun.
  pose proof (read_api_key_dir E (api_key a) (api_key_file a) w) as H0.
  destruct (read_api_key _ _ _ _) as [[e|key] w0]; [done|].
  destruct (truthy_str key) as [k|]; [|done].
  pose proof (ensure_output_dir_dir E (out_dir a) w0) as H1.
  destruct (ensure_output_dir _ _ _) as [[e|[]] w1]; [done|].
  pose proof (fetch_dir E a k w1) as H2.
  destruct (fetch _ _ _ _) as [[e|[c|]] w2]; [done| |done].
  pose proof (write_file_unlocked E (backup_name E) c w2) as H3.
  destruct (write_file _ _ _ _) as [[e|[]] w3]; [done|].
  injection Hrun as <-.
  apply enforce_retention_bound; [done|]. simpl in *.
  apply H3; [|done]. intros e He. apply Hd. congruence.
Qed.

Lemma retention_bound_after_run_witness :
  (length (backups (w_dir (run (demo_env 200) (demo_args (Some "k") None 3)
                             (world_of demo_dir)).2))
   <= Z.to_nat 3)%nat.
Proof.
  apply (retention_bound_after_run (demo_env 200)
           (demo_args (Some "k") None 3) (world_of demo_dir)).
  - reflexivity.
  - intros e He. simpl in He.
    repeat (apply elem_of_cons in He as [->|He]; [reflexivity|]).
    by apply elem_of_nil in He.
  - reflexivity.
  - vm_compute. reflexivity.
Defined.

(** C7 fails as stated: with a retention count of 1, a directory holding
    one old backup and one newer backup that cannot be unlinked is left,
    after a successful run, with two backups. *)
Lemma locked_backup_exceeds_retention :
  let r := run (demo_env 200) (demo_args (Some "k") None 1) (world_of locked_dir) in
  r.1 = Exit 0 /\
  retention (demo_args (Some "k") None 1) = 1 /\
  length (backups (w_dir r.2)) = 2%nat /\
  ~ (length (backups (w_dir r.2)) <= Z.to_nat 1)%nat.
Proof. vm_compute. repeat split. lia. Qed.

(** C8. A failing [unlink] never leaves the pruner's loop: each guarded
    [unlink] returns normally even when [unlink] itself raises, the loop
    calls [unlink] on every selected file in order whatever the earlier
    calls did, [enforce_retention] always returns, and a run that got as
    far as writing the backup ends with exit status 0. In the sample
    directory the first selected file cannot be unlinked; the second one
    is still tried and removed, and the run exits with 0. *)
Theorem unlink_failures_are_swallowed :
  (forall n w e, (unlink n w).1 = inl e ->
     try_except (unlink n) (fun _ => ret tt) w = (inr tt, (unlink n w).2)) /\
  (forall olds w,
     (prune olds w).1 = inr tt /\
     w_trace (prune olds w).2
       = w_trace w ++ map (fun o => EvUnlink (d_name o)) olds) /\
  (forall directory n w, (enforce_retention directory n w).1 = inr tt) /\
  (forall E a w key k w0 w1 c w2 w3,
     read_api_key E (api_key a) (api_key_file a) w = (inr key, w0) ->
     truthy_str key = Some k ->
     ensure_output_dir E (out_dir a) w0 = (inr tt, w1) ->
     fetch E a k w1 = (inr (Some c), w2) ->
     write_file E (backup_name E) c w2 = (inr tt, w3) ->
     (run E a w).1 = Exit 0) /\
  (let w := world_of (locked_dir ++ [f5]) in
   (unlink (d_name locked) w).1 = inl (OSError "EPERM") /\
   prune [locked; f1] w
   = (inr tt,
      {| w_dir := [locked; f5];
         w_trace := [EvUnlink (d_name locked); EvUnlink (d_name f1)];
         w_stdout := []; w_stderr := [] |}) /\
   (run (demo_env 200) (demo_args (Some "k") None 1) (world_of locked_dir)).1
   = Exit 0).
Proof.
  split; [|split; [|split; [|split]]].
  - intros n w e He. unfold try_except.
    destruct (unlink n w) as [[e'|[]] w']; [done|]. by simpl in He.
  - intros olds w. by rewrite prune_run.
  - apply enforce_retention_returns.
  - intros E a w key k w0 w1 c w2 w3 H0 Hk H1 H2 H3.
    unfold run. rewrite main_run, H0, Hk, H1, H2, H3. done.
  - vm_compute. repeat split.
Qed.

(** ** The fetch *)
Section Fetch.
Context (E : env).

Lemma download_file_run h u token verify w :
  download_file E h (VStr u) token verify w =
  let params := if truthy token then Some token else None in
  let w' := with_event w (EvGet (full_url h u) params verify) in
  match requests_get E (full_url h u) params verify with
  | inl e => (inl e, w')
  | inr resp =>
      if (400 <=? status_code resp) && (status_code resp <? 600)
      then (inl (HTTPError resp), w')
      else (inr (content resp), w')
  end.
Proof.
  unfold download_file, raise_for_status, bind, log. cbv beta zeta iota.
  rewrite lift_sum_run. destruct (requests_get E _ _ _) as [e|resp]; [done|].
  by destruct ((400 <=? status_code resp) && (status_code resp <? 600)).
Qed.

Lemma error_class_spec st :
  (400 <=? st) && (st <? 600) = true <-> 400 <= st < 600.
Proof. rewrite andb_true_iff, Z.leb_le, Z.ltb_lt. tauto. Qed.

End Fetch.

(** C5, as amended. [download_file] fails with an [HTTPError] carrying the
    response, hence its status code and body, exactly when the status is
    in the error classes 400 to 599; the run then prints the status and
    the body on the error stream, exits with status 1 and leaves the
    output directory as it was. For every other status, 2xx in particular,
    [download_file] returns the body of the response. *)
Theorem http_error_ends_run
    (E : env) (a : args) (w w0 w1 w2 : world) (key : option string)
    (k u : string) (token : value) (resp : response) :
  let verify := negb (no_verify_tls a) in
  let params := if truthy token then Some token else None in
  let w3 := with_event w2 (EvGet (full_url (host a) u) params verify) in
  read_api_key E (api_key a) (api_key_file a) w = (inr key, w0) ->
  truthy_str key = Some k ->
  ensure_output_dir E (out_dir a) w0 = (inr tt, w1) ->
  start_download_session E (host a) k (include_secrets a) verify w1
    = (inr (VStr u, token), w2) ->
  requests_get E (full_url (host a) u) params verify = inr resp ->
  (400 <= status_code resp < 600 ->
     download_file E (host a) (VStr u) token verify w2
       = (inl (HTTPError resp), w3) /\
     run E a w
       = (Exit 1, with_diag w3 (DiagHTTP (status_code resp) (text resp))) /\
     w_dir (run E a w).2 = w_dir w) /\
  (~ 400 <= status_code resp < 600 ->
     download_file E (host a) (VStr u) token verify w2
       = (inr (content resp), w3)) /\
  (200 <= status_code resp < 300 ->
     download_file E (host a) (VStr u) token verify w2
       = (inr (content resp), w3)).
Proof.
  intros verify params w3 H0 Hk H1 H2 Hget.
  assert (Hok : ~ 400 <= status_code resp < 600 ->
                download_file E (host a) (VStr u) token verify w2
                = (inr (content resp), w3)).
  { intros Hst. rewrite download_file_run. cbv zeta. fold params. rewrite Hget.
    destruct ((400 <=? status_code resp) && (status_code resp <? 600)) eqn:Hc;
      [|done].
    by apply error_class_spec in Hc. }
  split; [|split; [exact Hok|intros; apply Hok; lia]].
  intros Hst.
  assert (Hdl : download_file E (host a) (VStr u) token verify w2
                = (inl (HTTPError resp), w3)).
  { rewrite download_file_run. cbv zeta. fold params. rewrite Hget.
    by rewrite (proj2 (error_class_spec _) Hst). }
  assert (Hrun : run E a w
                 = (Exit 1, with_diag w3 (DiagHTTP (status_code resp) (text resp)))).
  { unfold run. rewrite main_run, H0, Hk, H1, fetch_run.
    unfold attempt, bind. cbv zeta. fold verify. rewrite H2.
    cbv beta iota. cbn [fst snd]. by rewrite Hdl. }
  split; [exact Hdl|]. split; [exact Hrun|].
  rewrite Hrun. simpl.
  pose proof (start_download_session_dir E (host a) k (include_secrets a)
                verify w1) as Hs.
  rewrite H2 in Hs. simpl in Hs. rewrite Hs.
  pose proof (ensure_output_dir_dir E (out_dir a) w0) as He.
  rewrite H1 in He. simpl in He. rewrite He.
  pose proof (read_api_key_dir E (api_key a) (api_key_file a) w) as Hr.
  by rewrite H0 in Hr.
Qed.

Lemma http_error_ends_run_witness :
  let r := run (demo_env 403) (demo_args (Some "k") None 14) (world_of demo_dir) in
  r.1 = Exit 1 /\ w_stderr r.2 = [DiagHTTP 403 "TAR"] /\ w_dir r.2 = demo_dir.
Proof.
  pose (w0 := world_of demo_dir).
  pose (w1 := with_event w0 (EvMkdir "/backups")).
  pose (w2 := with_event
                (with_event
                   (with_event w1
                      (EvConnect "wss://truenas.local/api/current" SslNone))
                   (EvLogin "k"))
                (EvCoreDownload false)).
  destruct (http_error_ends_run (demo_env 403) (demo_args (Some "k") None 14)
              w0 w0 w1 w2 (Some "k") "k" "/_download/7" (VStr "tok")
              {| status_code := 403; content := "TAR"; text := "TAR" |}
              eq_refl eq_refl eq_refl eq_refl eq_refl) as [H _].
  destruct H as (_ & Hrun & Hdir); [simpl; lia|].
  subst w0 w1 w2. cbv zeta. rewrite Hdir, Hrun. repeat split.
Defined.

(** C5 fails as stated: a response with status 304 is not a 2xx response,
    yet [download_file] returns its body and the run writes it as a backup
    and exits with status 0. *)
Lemma not_modified_is_written :
  let r := run (demo_env 304) (demo_args (Some "k") None 14) (world_of []) in
  ~ 200 <= 304 < 300 /\
  (download_file (demo_env 304) "truenas.local" (VStr "/_download/7")
     (VStr "tok") true (world_of [])).1 = inr "TAR" /\
  r.1 = Exit 0 /\
  map d_name (w_dir r.2) = ["truenas_config_20261104_010203.tar"].
Proof. cbv zeta. split; [lia|]. vm_compute. repeat split. Qed.

(** ** Failures and exit statuses *)
Section Calls.
Context (E : env).

Lemma extends_trans w1 w2 w3 l1 l2 :
  extends w1 w2 l1 -> extends w2 w3 l2 -> extends w1 w3 (l1 ++ l2).
Proof. unfold extends. intros H1 H2. by rewrite H2, H1, app_assoc. Qed.

Lemma remote_calls_app l1 l2 :
  remote_calls (l1 ++ l2) = remote_calls l1 ++ remote_calls l2.
Proof. unfold remote_calls. by rewrite List.filter_app, map_app. Qed.

Lemma read_api_key_calls x y w :
  exists l, extends w (read_api_key E x y w).2 l /\ remote_calls l = [].
Proof.
  unfold read_api_key, bind, log, extends.
  destruct (truthy_str x); [exists []; by rewrite app_nil_r|].
  destruct (truthy_str y) as [p|].
  - cbv beta zeta iota. rewrite lift_sum_run. exists [EvReadFile p].
    by destruct (open_read E p).
  - exists []. rewrite app_nil_r.
    by destruct (truthy_str (environ_TRUENAS_API_KEY E)).
Qed.

Lemma start_download_session_calls h k s v w :
  exists l, extends w (start_download_session E h k s v w).2 l /\
    match (start_download_session E h k s v w).1 with
    | inr _ => remote_calls l = [1; 2; 3]%nat
    | inl _ => exists rest, [1; 2; 3]%nat = remote_calls l ++ rest
    end.
Proof.
  unfold start_download_session, bind, log, extends.
  cbv beta zeta iota. rewrite lift_err_run.
  destruct (client_connect E _ _).
  { eexists [_]. split; [reflexivity|]. by eexists. }
  cbv beta iota. rewrite lift_sum_run. destruct (call_login E _ _).
  { eexists [_; _]. split; [simpl; by rewrite <- app_assoc|]. by eexists. }
  cbv beta iota. rewrite lift_sum_run. destruct (call_core_download E _ _).
  { eexists [_; _; _]. split; [simpl; by rewrite <- !app_assoc|].
    by exists []. }
  cbv beta iota. rewrite lift_sum_run.
  eexists [_; _; _]. split; [simpl; by rewrite <- !app_assoc|].
  destruct (parse_reply _); [by exists []|done].
Qed.

Lemma download_file_calls h u t v w :
  exists l, extends w (download_file E h u t v w).2 l /\
    (remote_calls l = [] \/ remote_calls l = [4]%nat).
Proof.
  destruct u; try (exists []; unfold extends; simpl;
                   split; [by rewrite app_nil_r|by left]).
  rewrite download_file_run. cbv zeta. eexists [_].
  split.
  - unfold extends.
    destruct (requests_get E _ _ _) as [e|resp]; [reflexivity|].
    by destruct ((400 <=? status_code resp) && (status_code resp <? 600)).
  - by right.
Qed.

Lemma attempt_calls a k w :
  exists l, extends w (attempt E a k w).2 l /\
    exists rest, [1; 2; 3; 4]%nat = remote_calls l ++ rest.
Proof.
  unfold attempt, bind. cbv zeta.
  destruct (start_download_session_calls (host a) k (include_secrets a)
              (negb (no_verify_tls a)) w) as (l1 & H1 & Hk1).
  destruct (start_download_session _ _ _ _ _ _) as [[e|dl] w1].
  { exists l1. split; [exact H1|]. simpl in Hk1.
    destruct Hk1 as [rest Hr]. exists (rest ++ [4%nat]).
    by rewrite app_assoc, <- Hr. }
  simpl in Hk1.
  destruct (download_file_calls (host a) dl.1 dl.2 (negb (no_verify_tls a)) w1)
    as (l2 & H2 & Hk2).
  exists (l1 ++ l2). simpl in H1.
  split.
  - eapply extends_trans; [exact H1|].
    by destruct (download_file _ _ _ _ _ _) as [[e|c] w2].
  - rewrite remote_calls_app, Hk1. destruct Hk2 as [-> | ->]; by eexists.
Qed.

Lemma fetch_calls a k w :
  exists l, extends w (fetch E a k w).2 l /\
    exists rest, [1; 2; 3; 4]%nat = remote_calls l ++ rest.
Proof.
  destruct (attempt_calls a k w) as (l & Hl & Hr). exists l.
  split; [|exact Hr]. rewrite fetch_run.
  by destruct (attempt E a k w) as [[e|r] w'].
Qed.

Lemma write_file_calls n c w :
  extends w (write_file E n c w).2 [EvWrite n].
Proof.
  unfold write_file, bind, log, get_dir, put_dir, extends.
  cbv beta zeta iota. rewrite lift_err_run.
  destruct (open_write E n); [done|]. simpl.
  destruct (List.find (has_name n) (w_dir w)) as [x|]; [|done].
  by destruct (d_is_file x).
Qed.

Lemma unlinks_not_remote (olds : list dirent) :
  remote_calls (map (fun o => EvUnlink (d_name o)) olds) = [].
Proof. unfold remote_calls. by induction olds. Qed.

Lemma enforce_retention_calls directory n w :
  exists l, extends w (enforce_retention directory n w).2 l /\
    remote_calls l = [].
Proof.
  destruct (Z.le_gt_cases n 0) as [Hn|Hn].
  - rewrite enforce_retention_off by done. exists [].
    split; [unfold extends; by rewrite app_nil_r|done].
  - rewrite enforce_retention_on, prune_run by lia.
    eexists. split; [reflexivity|apply unlinks_not_remote].
Qed.

(** Whatever happens, a run makes each remote call at most once, in the
    order connect, login, export, fetch. *)
Lemma run_calls a w :
  exists l, extends w (run E a w).2 l /\
    remote_calls l `prefix_of` [1; 2; 3; 4]%nat.
Proof.
  assert (Hsnd : (run E a w).2 = (main E a w).2).
  { unfold run. by destruct (main E a w) as [[e|c] w']. }
  rewrite Hsnd, main_run. unfold prefix.
  destruct (read_api_key_calls (api_key a) (api_key_file a) w)
    as (l0 & H0 & Hr0).
  destruct (read_api_key _ _ _ _) as [[e|key] w0]; simpl in H0.
  { exists l0. split; [done|]. rewrite Hr0. by eexists. }
  destruct (truthy_str key) as [k|].
  2:{ exists l0. split; [done|]. rewrite Hr0. by eexists. }
  pose proof (ensure_output_dir_run E (out_dir a) w0) as H1.
  assert (H1' : extends w (ensure_output_dir E (out_dir a) w0).2
                  (l0 ++ [EvMkdir (out_dir a)])).
  { eapply extends_trans; [exact H0|]. by rewrite H1. }
  assert (Hr1 : remote_calls (l0 ++ [EvMkdir (out_dir a)]) = []).
  { by rewrite remote_calls_app, Hr0. }
  clear H1. destruct (ensure_output_dir _ _ _) as [[e|[]] w1]; simpl in H1'.
  { eexists. split; [exact H1'|]. rewrite Hr1. by eexists. }
  destruct (fetch_calls a k w1) as (l2 & H2 & rest & Hr2).
  pose proof (extends_trans _ _ _ _ _ H1' H2) as H2'.
  assert (Hr2' : remote_calls ((l0 ++ [EvMkdir (out_dir a)]) ++ l2)
                 = remote_calls l2).
  { by rewrite remote_calls_app, Hr1. }
  clear H2. destruct (fetch _ _ _ _) as [[e|[c|]] w2]; simpl in H2'.
  1,3: eexists; split; [exact H2'|]; rewrite Hr2'; by exists rest.
  pose proof (write_file_calls (backup_name E) c w2) as H3.
  pose proof (extends_trans _ _ _ _ _ H2' H3) as H3'. clear H3.
  destruct (write_file _ _ _ _) as [[e|[]] w3]; simpl in H3'.
  { eexists. split; [exact H3'|].
    rewrite remote_calls_app, Hr2', app_nil_r. by exists rest. }
  destruct (enforce_retention_calls (out_dir a) (retention a)
              (with_line w3
                 ("Wrote " +:+ path_join (out_dir a) (backup_name E))))
    as (l4 & H4 & Hr4).
  eexists. split.
  - simpl. eapply extends_trans; [|exact H4]. exact H3'.
  - rewrite !remote_calls_app, Hr4, Hr0. simpl. rewrite !app_nil_r.
    by exists rest.
Qed.

End Calls.


Section Failures.
Context (E : env).

(** Each remote step that fails makes the [try] block fail with the
    same exception: refused connection, rejected login, failed export
    call, malformed reply, transport failure of the fetch. *)
Lemma attempt_raises a k w :
  let uri := ws_api_url (host a) in
  let verify := negb (no_verify_tls a) in
  let ssl := if startswith uri "wss://"
             then (if negb verify then SslUnverified else SslNone)
             else SslNone in
  (forall e, client_connect E uri ssl = Some e ->
     (attempt E a k w).1 = inl e) /\
  (forall e, client_connect E uri ssl = None ->
     call_login E uri k = inl e -> (attempt E a k w).1 = inl e) /\
  (forall e v, client_connect E uri ssl = None ->
     call_login E uri k = inr v ->
     call_core_download E uri (include_secrets a) = inl e ->
     (attempt E a k w).1 = inl e) /\
  (forall e v r, client_connect E uri ssl = None ->
     call_login E uri k = inr v ->
     call_core_download E uri (include_secrets a) = inr r ->
     parse_reply r = inl e -> (attempt E a k w).1 = inl e) /\
  (forall e v r u tok, client_connect E uri ssl = None ->
     call_login E uri k = inr v ->
     call_core_download E uri (include_secrets a) = inr r ->
     parse_reply r = inr (VStr u, tok) ->
     requests_get E (full_url (host a) u)
       (if truthy tok then Some tok else None) verify = inl e ->
     (attempt E a k w).1 = inl e).
Proof.
  intros uri verify ssl.
  unfold attempt, start_download_session, bind, log.
  cbv zeta. fold uri. fold verify. fold ssl. cbv beta iota.
  rewrite lift_err_run. repeat split.
  - by intros e ->.
  - intros e -> Hl. cbv beta iota. by rewrite lift_sum_run, Hl.
  - intros e v -> Hl Hd. cbv beta iota. rewrite lift_sum_run, Hl.
    cbv beta iota. by rewrite lift_sum_run, Hd.
  - intros e v r -> Hl Hd Hp. cbv beta iota. rewrite lift_sum_run, Hl.
    cbv beta iota. rewrite lift_sum_run, Hd. cbv beta iota.
    by rewrite lift_sum_run, Hp.
  - intros e v r u tok -> Hl Hd Hp Hg. cbv beta iota. rewrite lift_sum_run, Hl.
    cbv beta iota. rewrite lift_sum_run, Hd. cbv beta iota.
    rewrite lift_sum_run, Hp. cbv beta iota. cbn [fst snd].
    rewrite download_file_run. cbv zeta. by rewrite Hg.
Qed.

Lemma read_api_key_stderr x y w :
  w_stderr (read_api_key E x y w).2 = w_stderr w.
Proof.
  unfold read_api_key, bind, log.
  destruct (truthy_str x); [done|]. destruct (truthy_str y) as [p|].
  - cbv beta zeta iota. rewrite lift_sum_run. by destruct (open_read E p).
  - by destruct (truthy_str (environ_TRUENAS_API_KEY E)).
Qed.

Lemma start_download_session_stderr h k s v w :
  w_stderr (start_download_session E h k s v w).2 = w_stderr w.
Proof.
  unfold start_download_session, bind, log. cbv beta zeta iota.
  rewrite lift_err_run. destruct (client_connect E _ _); [done|].
  rewrite lift_sum_run. destruct (call_login E _ _); [done|].
  rewrite lift_sum_run. destruct (call_core_download E _ _); [done|].
  by rewrite lift_sum_run.
Qed.

Lemma download_file_stderr h u t v w :
  w_stderr (download_file E h u t v w).2 = w_stderr w.
Proof.
  destruct u; try done. rewrite download_file_run. cbv zeta.
  destruct (requests_get E _ _ _) as [e|resp]; [done|].
  by destruct ((400 <=? status_code resp) && (status_code resp <? 600)).
Qed.

Lemma attempt_stderr a k w : w_stderr (attempt E a k w).2 = w_stderr w.
Proof.
  unfold attempt, bind. cbv beta zeta iota.
  pose proof (start_download_session_stderr (host a) k (include_secrets a)
                (negb (no_verify_tls a)) w) as Hs.
  destruct (start_download_session _ _ _ _ _ _) as [[e|dl] w1]; [done|].
  pose proof (download_file_stderr (host a) dl.1 dl.2
                (negb (no_verify_tls a)) w1) as Hd.
  destruct (download_file _ _ _ _ _ _) as [[e|c] w2]; simpl in *; congruence.
Qed.

End Failures.

(** C9, as amended. Once a key is resolved, every failure of the session
    or of the fetch — refused connection, rejected login, failed export
    call, malformed reply, transport or HTTP failure — is caught by the
    handlers of [main]: one diagnostic goes to the error stream, the
    status is 1 and the output directory is untouched. Without a key the
    status is 2. No remote call is made twice. *)
Theorem remote_failures_exit_1
    (E : env) (a : args) (w w0 : world) (key : option string) :
  read_api_key E (api_key a) (api_key_file a) w = (inr key, w0) ->
  (truthy_str key = None -> run E a w = (Exit 2, with_diag w0 DiagNoKey)) /\
  (forall k w1 e w2,
     truthy_str key = Some k ->
     ensure_output_dir E (out_dir a) w0 = (inr tt, w1) ->
     attempt E a k w1 = (inl e, w2) ->
     run E a w = (Exit 1, with_diag w2 (diag_of e)) /\
     w_stderr (run E a w).2 = w_stderr w ++ [diag_of e] /\
     w_dir (run E a w).2 = w_dir w) /\
  (forall k w1,
     let uri := ws_api_url (host a) in
     let verify := negb (no_verify_tls a) in
     let ssl := if startswith uri "wss://"
                then (if negb verify then SslUnverified else SslNone)
                else SslNone in
     (forall e, client_connect E uri ssl = Some e ->
        (attempt E a k w1).1 = inl e) /\
     (forall e, client_connect E uri ssl = None ->
        call_login E uri k = inl e -> (attempt E a k w1).1 = inl e) /\
     (forall e v, client_connect E uri ssl = None ->
        call_login E uri k = inr v ->
        call_core_download E uri (include_secrets a) = inl e ->
        (attempt E a k w1).1 = inl e) /\
     (forall e v r, client_connect E uri ssl = None ->
        call_login E uri k = inr v ->
        call_core_download E uri (include_secrets a) = inr r ->
        parse_reply r = inl e -> (attempt E a k w1).1 = inl e) /\
     (forall e v r u tok, client_connect E uri ssl = None ->
        call_login E uri k = inr v ->
        call_core_download E uri (include_secrets a) = inr r ->
        parse_reply r = inr (VStr u, tok) ->
        requests_get E (full_url (host a) u)
          (if truthy tok then Some tok else None) verify = inl e ->
        (attempt E a k w1).1 = inl e)) /\
  (exists l, extends w (run E a w).2 l /\
     remote_calls l `prefix_of` [1; 2; 3; 4]%nat).
Proof.
  intros H0. split; [|split; [|split]].
  - intros Hk. unfold run. by rewrite main_run, H0, Hk.
  - intros k w1 e w2 Hk H1 Ha.
    assert (Hrun : run E a w = (Exit 1, with_diag w2 (diag_of e))).
    { unfold run. by rewrite main_run, H0, Hk, H1, fetch_run, Ha. }
    split; [exact Hrun|]. rewrite Hrun. simpl.
    pose proof (attempt_dir E a k w1) as Hd. rewrite Ha in Hd. simpl in Hd.
    pose proof (ensure_output_dir_run E (out_dir a) w0) as He.
    rewrite H1 in He. injection He as _ ->.
    pose proof (read_api_key_dir E (api_key a) (api_key_file a) w) as Hr.
    rewrite H0 in Hr. simpl in Hr, Hd. rewrite Hd, Hr. split; [|done].
    f_equal.
    pose proof (attempt_stderr E a k (with_event w0 (EvMkdir (out_dir a)))) as Hs.
    rewrite Ha in Hs. simpl in Hs. rewrite Hs.
    pose proof (read_api_key_stderr E (api_key a) (api_key_file a) w) as Hr'.
    by rewrite H0 in Hr'.
  - intros k w1. apply attempt_raises.
  - apply run_calls.
Qed.

Lemma remote_failures_exit_1_witness :
  let w := world_of demo_dir in
  let w1 := with_event w (EvMkdir "/backups") in
  let w2 := with_event w1 (EvConnect "wss://truenas.local/api/current" SslNone) in
  run offline_env (demo_args (Some "k") None 14) w
  = (Exit 1, with_diag w2 (DiagError (RemoteError "connection refused"))).
Proof.
  intros w w1 w2.
  destruct (remote_failures_exit_1 offline_env (demo_args (Some "k") None 14)
              w w (Some "k") eq_refl) as (_ & H & _).
  destruct (H "k" w1 (RemoteError "connection refused") w2
              eq_refl eq_refl eq_refl) as [Hrun _].
  exact Hrun.
Defined.

(** C9 fails as stated: a failure to write the backup file happens after
    credential resolution, yet it is raised outside the [try] block, so
    the run ends with an uncaught exception and prints no diagnostic of
    its own. *)
Lemma write_failure_is_uncaught :
  let r := run full_disk_env (demo_args (Some "k") None 14) (world_of []) in
  r.1 = Traceback (OSError "ENOSPC") /\ r.1 <> Exit 1 /\ w_stderr r.2 = [].
Proof. vm_compute. repeat split. discriminate. Qed.

(** * Further properties *)

(** ** The new backup and the directory *)
Section NewBackup.
Context (E : env).

Lemma slice_from_app p x : slice_from (String.length p) (p +:+ x) = x.
Proof. induction p as [|c p IH]; [done|]. by rewrite app_cons. Qed.

Lemma is_backup_name_stamp ts :
  is_backup_name ("truenas_config_" +:+ ts +:+ ".tar") = true.
Proof.
  unfold is_backup_name.
  by rewrite startswith_app, slice_from_app, endswith_app.
Qed.

Lemma write_file_run n c w :
  write_file E n c w =
  let w1 := with_event w (EvWrite n) in
  match open_write E n with
  | Some e => (inl e, w1)
  | None =>
      match List.find (has_name n) (w_dir w) with
      | Some x =>
          if d_is_file x then
            (inr tt,
             with_dir w1
               (map (fun y => if has_name n y
                              then {| d_name := n; d_is_file := true;
                                      d_mtime := now_mtime E; d_content := c;
                                      d_unlink_err := d_unlink_err y |}
                              else y) (w_dir w)))
          else (inl (OSError "IsADirectoryError"), w1)
      | None =>
          (inr tt,
           with_dir w1
             (w_dir w ++ [{| d_name := n; d_is_file := true;
                             d_mtime := now_mtime E; d_content := c;
                             d_unlink_err := created_unlink_err E |}]))
      end
  end.
Proof.
  unfold write_file, bind, log, get_dir, put_dir. cbv beta zeta iota.
  rewrite lift_err_run. destruct (open_write E n); [done|]. simpl.
  destruct (List.find (has_name n) (w_dir w)) as [x|]; [|done].
  by destruct (d_is_file x).
Qed.

Lemma write_file_failure_dir n c w e :
  (write_file E n c w).1 = inl e -> only_trace w (write_file E n c w).2.
Proof.
  rewrite write_file_run. cbv zeta.
  destruct (open_write E n); [done|].
  destruct (List.find (has_name n) (w_dir w)) as [x|]; [|done].
  by destruct (d_is_file x).
Qed.

Lemma find_has_name_Some n d x :
  List.find (has_name n) d = Some x -> x ∈ d /\ d_name x = n.
Proof.
  intros H. apply List.find_some in H as [Hin Hn].
  split; [by apply list_elem_of_In|by apply has_name_eq].
Qed.

End NewBackup.

(** X1. The file [main] writes is one the pruner will see: whatever the
    timestamp, its name matches [truenas_config_*.tar], and after a
    successful write the directory lists it as a regular file with the
    written content and the current modification time. *)
Theorem written_backup_is_counted (E : env) (c : string) (w w' : world) :
  write_file E (backup_name E) c w = (inr tt, w') ->
  is_backup_name (backup_name E) = true /\
  exists e, e ∈ backups (w_dir w') /\ d_name e = backup_name E /\
            d_content e = c /\ d_mtime e = now_mtime E.
Proof.
  intros Hw. split; [apply is_backup_name_stamp|].
  exists {| d_name := backup_name E; d_is_file := true; d_mtime := now_mtime E;
            d_content := c;
            d_unlink_err :=
              match List.find (has_name (backup_name E)) (w_dir w) with
              | Some x => d_unlink_err x
              | None => created_unlink_err E
              end |}.
  split; [|done]. apply elem_of_backups. simpl.
  split; [|split; [apply is_backup_name_stamp|done]].
  rewrite write_file_run in Hw. cbv zeta in Hw.
  destruct (open_write E (backup_name E)); [done|].
  destruct (List.find (has_name (backup_name E)) (w_dir w)) as [x|] eqn:Hf.
  - destruct (d_is_file x); [|done]. injection Hw as <-. simpl.
    apply find_has_name_Some in Hf as [Hin Hn].
    apply list_elem_of_fmap. exists x. split; [|done].
    by rewrite (proj2 (has_name_eq _ _) Hn).
  - injection Hw as <-. simpl. apply elem_of_app. right. by left.
Qed.

Lemma written_backup_is_counted_witness :
  exists e, e ∈ backups (w_dir (write_file (demo_env 200)
                                   (backup_name (demo_env 200)) "TAR"
                                   (world_of demo_dir)).2) /\
            d_name e = "truenas_config_20261104_010203.tar" /\
            d_content e = "TAR" /\ d_mtime e = 600.
Proof.
  exact (proj2 (written_backup_is_counted (demo_env 200) "TAR"
                  (world_of demo_dir) _ eq_refl)).
Defined.

(** ** What a run leaves alone *)
Section Untouched.
Context (E : env).

Lemma only_trace_refl w : only_trace w w.
Proof. by repeat split. Qed.

Lemma only_trace_trans w1 w2 w3 :
  only_trace w1 w2 -> only_trace w2 w3 -> only_trace w1 w3.
Proof. intros (?&?&?) (?&?&?). repeat split; congruence. Qed.

Lemma read_api_key_only_trace x y w : only_trace w (read_api_key E x y w).2.
Proof.
  unfold read_api_key, bind, log.
  destruct (truthy_str x); [apply only_trace_refl|].
  destruct (truthy_str y) as [p|].
  - cbv beta zeta iota. rewrite lift_sum_run. by destruct (open_read E p).
  - destruct (truthy_str (environ_TRUENAS_API_KEY E)); apply only_trace_refl.
Qed.

Lemma ensure_output_dir_only_trace p w :
  only_trace w (ensure_output_dir E p w).2.
Proof. by rewrite ensure_output_dir_run. Qed.

Lemma start_download_session_only_trace h k s v w :
  only_trace w (start_download_session E h k s v w).2.
Proof.
  unfold start_download_session, bind, log. cbv beta zeta iota.
  rewrite lift_err_run. destruct (client_connect E _ _); [done|].
  rewrite lift_sum_run. destruct (call_login E _ _); [done|].
  rewrite lift_sum_run. destruct (call_core_download E _ _); [done|].
  by rewrite lift_sum_run.
Qed.

Lemma download_file_only_trace h u t v w :
  only_trace w (download_file E h u t v w).2.
Proof.
  destruct u; try apply only_trace_refl. rewrite download_file_run. cbv zeta.
  destruct (requests_get E _ _ _) as [e|resp]; [done|].
  by destruct ((400 <=? status_code resp) && (status_code resp <? 600)).
Qed.

Lemma attempt_only_trace a k w : only_trace w (attempt E a k w).2.
Proof.
  unfold attempt, bind. cbv beta zeta iota.
  pose proof (start_download_session_only_trace (host a) k (include_secrets a)
                (negb (no_verify_tls a)) w) as Hs.
  destruct (start_download_session _ _ _ _ _ _) as [[e|dl] w1]; [done|].
  pose proof (download_file_only_trace (host a) dl.1 dl.2
                (negb (no_verify_tls a)) w1) as Hd.
  destruct (download_file _ _ _ _ _ _) as [[e|c] w2];
    exact (only_trace_trans _ _ _ Hs Hd).
Qed.

(** The directory and standard output after [fetch]; the error stream may
    have gained a diagnostic. *)
Lemma fetch_keeps_files a k w :
  w_dir (fetch E a k w).2 = w_dir w /\
  w_stdout (fetch E a k w).2 = w_stdout w.
Proof.
  rewrite fetch_run. destruct (attempt_only_trace a k w) as (Hd & Ho & _).
  by destruct (attempt E a k w) as [[e|r] w'].
Qed.

Lemma after_unlink_keeps d n e :
  e ∈ d -> d_name e <> n -> e ∈ after_unlink d n.
Proof.
  intros He Hn. unfold after_unlink. destruct (unlink_ok d n); [|done].
  apply list_elem_of_In, List.filter_In. split; [by apply list_elem_of_In|].
  apply negb_true_iff. destruct (has_name n e) eqn:Hh; [|done].
  by apply has_name_eq in Hh.
Qed.

Lemma foldl_after_unlink_keeps names d e :
  e ∈ d -> (forall n, n ∈ names -> d_name e <> n) ->
  e ∈ foldl after_unlink d names.
Proof.
  revert d. induction names as [|n names IH]; intros d He Hn; [done|].
  simpl. apply IH.
  - apply after_unlink_keeps; [done|]. apply Hn. by left.
  - intros m Hm. apply Hn. by right.
Qed.

(** The pruner only ever unlinks names that match the backup pattern. *)
Lemma enforce_retention_keeps_others directory n w e :
  e ∈ w_dir w -> is_backup_name (d_name e) = false ->
  e ∈ w_dir (enforce_retention directory n w).2.
Proof.
  intros He Hn. destruct (Z.le_gt_cases n 0) as [Hle|Hgt].
  { by rewrite enforce_retention_off. }
  rewrite enforce_retention_on, prune_run by lia. simpl.
  apply foldl_after_unlink_keeps; [done|].
  intros m Hm Heq. apply list_elem_of_fmap in Hm as (o & -> & Ho).
  assert (Hf : o ∈ sorted_mtime_desc (backups (w_dir w))).
  { rewrite <- (take_drop (Z.to_nat n)). apply elem_of_app. by right. }
  clear Ho. rename Hf into Ho. rewrite sorted_mtime_desc_perm in Ho.
  apply elem_of_backups in Ho as (_ & Hb & _). congruence.
Qed.

End Untouched.



(** X3. A run never removes or rewrites an entry of the output directory
    whose name does not match [truenas_config_*.tar]: every such entry is
    still there, unchanged, whatever the run did. *)
Theorem other_entries_survive (E : env) (a : args) (w : world) (e : dirent) :
  e ∈ w_dir w -> is_backup_name (d_name e) = false ->
  e ∈ w_dir (run E a w).2.
Proof.
  intros He Hn. unfold run. rewrite main_run.
  destruct (read_api_key_only_trace E (api_key a) (api_key_file a) w)
    as (Hd0 & _).
  destruct (read_api_key _ _ _ _) as [[x|key] w0]; simpl in Hd0;
    [simpl; congruence|].
  destruct (truthy_str key) as [k|]; [|simpl; congruence].
  destruct (ensure_output_dir_only_trace E (out_dir a) w0) as (Hd1 & _).
  destruct (ensure_output_dir _ _ _) as [[x|[]] w1]; simpl in Hd1;
    [simpl; congruence|].
  destruct (fetch_keeps_files E a k w1) as (Hd2 & _).
  destruct (fetch _ _ _ _) as [[x|[c|]] w2]; simpl in Hd2;
    [simpl; congruence| |simpl; congruence].
  assert (He2 : e ∈ w_dir w2) by congruence.
  pose proof (write_file_failure_dir E (backup_name E) c w2) as Hfail.
  pose proof (write_file_run E (backup_name E) c w2) as Hrun.
  destruct (write_file _ _ _ _) as [[x|[]] w3].
  { destruct (Hfail x eq_refl) as (Hd3 & _). simpl in *. congruence. }
  simpl. apply enforce_retention_keeps_others; [|done]. simpl.
  cbv zeta in Hrun.
  assert (Hne : has_name (backup_name E) e = false).
  { destruct (has_name (backup_name E) e) eqn:Hh; [|done].
    apply has_name_eq in Hh. rewrite Hh in Hn.
    unfold backup_name in Hn. by rewrite is_backup_name_stamp in Hn. }
  destruct (open_write E (backup_name E)); [done|].
  destruct (List.find (has_name (backup_name E)) (w_dir w2)) as [y|].
  - destruct (d_is_file y); [|done]. injection Hrun as ->. simpl.
    apply list_elem_of_fmap. exists e. by rewrite Hne.
  - injection Hrun as ->. simpl. apply elem_of_app. by left.
Qed.

Lemma other_entries_survive_witness :
  notes ∈ w_dir (run (demo_env 200) (demo_args (Some "k") None 1)
                   (world_of demo_dir)).2.
Proof.
  apply (other_entries_survive (demo_env 200) (demo_args (Some "k") None 1)
           (world_of demo_dir) notes).
  - simpl. do 2 right. left.
  - reflexivity.
Defined.

(** ** More on retention *)
Section Kept.

Lemma NoDup_names_filter (f : dirent -> bool) d :
  NoDup (map d_name d) -> NoDup (map d_name (List.filter f d)).
Proof.
  induction d as [|x d IH]; simpl; [done|].
  intros Hnd. apply NoDup_cons in Hnd as [Hx Hd].
  destruct (f x); simpl; [|by apply IH].
  apply NoDup_cons. split; [|by apply IH].
  intros Hin. apply Hx. apply list_elem_of_fmap in Hin as (y & Hy & Hin).
  apply list_elem_of_fmap. exists y. split; [done|].
  apply list_elem_of_In in Hin. apply List.filter_In in Hin as [Hin _].
  by apply list_elem_of_In.
Qed.

Lemma same_name_same_entry d x y :
  NoDup (map d_name d) -> x ∈ d -> y ∈ d -> d_name x = d_name y -> x = y.
Proof.
  induction d as [|z d IH]; intros Hnd Hx Hy Hn; [by apply elem_of_nil in Hx|].
  simpl in Hnd. apply NoDup_cons in Hnd as [Hz Hd].
  apply elem_of_cons in Hx as [->|Hx]; apply elem_of_cons in Hy as [->|Hy].
  - done.
  - destruct Hz. rewrite Hn. by apply list_elem_of_fmap_2.
  - destruct Hz. rewrite <- Hn. by apply list_elem_of_fmap_2.
  - by apply IH.
Qed.

Lemma sorted_backups_names d :
  NoDup (map d_name d) -> NoDup (map d_name (sorted_mtime_desc (backups d))).
Proof.
  intros Hnd. rewrite sorted_mtime_desc_perm. by apply NoDup_names_filter.
Qed.

(** With distinct names in the directory, what the pruner keeps is out of
    reach of its [unlink] calls. *)
Lemma kept_survive directory n w k :
  NoDup (map d_name (w_dir w)) -> 0 < n ->
  k ∈ take (Z.to_nat n) (sorted_mtime_desc (backups (w_dir w))) ->
  k ∈ w_dir (enforce_retention directory n w).2.
Proof.
  intros Hnd Hn Hk.
  set (files := sorted_mtime_desc (backups (w_dir w))) in *.
  assert (Hnf : NoDup (map d_name files)) by by apply sorted_backups_names.
  rewrite <- (take_drop (Z.to_nat n) files), fmap_app in Hnf.
  apply NoDup_app in Hnf as (_ & Hdisj & _).
  rewrite enforce_retention_on, prune_run by done. simpl. fold files.
  apply foldl_after_unlink_keeps.
  - assert (Hf : k ∈ files).
    { rewrite <- (take_drop (Z.to_nat n) files). apply elem_of_app. by left. }
    unfold files in Hf. rewrite sorted_mtime_desc_perm in Hf.
    by apply elem_of_backups in Hf as [? _].
  - intros m Hm Heq. apply (Hdisj m); [|done].
    rewrite <- Heq. by apply list_elem_of_fmap_2.
Qed.

Lemma enforce_retention_under_limit directory n w :
  (length (backups (w_dir w)) <= Z.to_nat n)%nat ->
  enforce_retention directory n w = (inr tt, w).
Proof.
  intros Hlen. destruct (Z.le_gt_cases n 0) as [Hle|Hgt].
  { by apply enforce_retention_off. }
  rewrite enforce_retention_on by lia.
  rewrite drop_ge.
  - done.
  - by rewrite (Permutation_length (sorted_mtime_desc_perm _)).
Qed.

End Kept.

(** X4. The pruner never deletes one of the newest backups: when the names
    in the directory are distinct, as they are in a real directory, and
    the count [n] is positive, each of the first [n] files in descending
    order of modification time is still in the directory afterwards,
    whatever happened to the others. *)
Theorem newest_backups_are_kept
    (directory : string) (n : Z) (w : world) (k : dirent) :
  NoDup (map d_name (w_dir w)) -> 0 < n ->
  k ∈ take (Z.to_nat n) (sorted_mtime_desc (backups (w_dir w))) ->
  k ∈ w_dir (enforce_retention directory n w).2.
Proof. apply kept_survive. Qed.

Lemma newest_backups_are_kept_witness :
  f4 ∈ w_dir (enforce_retention "/backups" 2 (world_of demo_dir)).2.
Proof.
  apply (newest_backups_are_kept "/backups" 2 (world_of demo_dir) f4).
  - apply (bool_decide_unpack _). vm_compute. exact I.
  - reflexivity.
  - vm_compute. right. left.
Defined.

(** X5. The pruner calls [unlink] as many times as there are backups
    beyond the count, and when there are at most [n] backups it does
    nothing at all: no call, and the world is as it was. *)
Theorem unlink_count (directory : string) (n : Z) (w : world) :
  0 < n ->
  (exists l, extends w (enforce_retention directory n w).2 l /\
     Forall (fun ev => event_kind ev = 7%nat) l /\
     length l = (length (backups (w_dir w)) - Z.to_nat n)%nat) /\
  ((length (backups (w_dir w)) <= Z.to_nat n)%nat ->
     enforce_retention directory n w = (inr tt, w)).
Proof.
  intros Hn. split; [|apply enforce_retention_under_limit].
  rewrite enforce_retention_on, prune_run by done.
  eexists. split; [reflexivity|]. split.
  - apply Forall_fmap. by apply Forall_true.
  - rewrite length_fmap, length_drop.
    by rewrite (Permutation_length (sorted_mtime_desc_perm _)).
Qed.

Lemma unlink_count_witness :
  exists l, extends (world_of demo_dir)
              (enforce_retention "/backups" 3 (world_of demo_dir)).2 l /\
    Forall (fun ev => event_kind ev = 7%nat) l /\ length l = 2%nat.
Proof.
  exact (proj1 (unlink_count "/backups" 3 (world_of demo_dir) eq_refl)).
Defined.

(** X6. Pruning is idempotent when nothing resists deletion: a second
    pass over the directory the first pass left finds nothing to do, makes
    no [unlink] call and leaves the world as it is. *)
Theorem pruning_twice_is_pruning_once (directory : string) (n : Z) (w : world) :
  (forall e, e ∈ w_dir w -> d_unlink_err e = None) ->
  let w1 := (enforce_retention directory n w).2 in
  enforce_retention directory n w1 = (inr tt, w1).
Proof.
  intros Hd w1. destruct (Z.le_gt_cases n 0) as [Hle|Hgt].
  { by apply enforce_retention_off. }
  apply enforce_retention_under_limit.
  apply enforce_retention_bound; [lia|done].
Qed.

Lemma pruning_twice_is_pruning_once_witness :
  let w1 := (enforce_retention "/backups" 3 (world_of demo_dir)).2 in
  enforce_retention "/backups" 3 w1 = (inr tt, w1).
Proof.
  apply (pruning_twice_is_pruning_once "/backups" 3 (world_of demo_dir)).
  intros e He. simpl in He.
  repeat (apply elem_of_cons in He as [->|He]; [reflexivity|]).
  by apply elem_of_nil in He.
Defined.

(** ** The backup just taken *)
Section Fresh.
Context (E : env).

Lemma fetch_some_body a k w c w' :
  fetch E a k w = (inr (Some c), w') ->
  exists url params resp,
    requests_get E url params (negb (no_verify_tls a)) = inr resp /\
    c = content resp /\ ~ 400 <= status_code resp < 600.
Proof.
  rewrite fetch_run. unfold attempt, bind. cbv zeta.
  destruct (start_download_session _ _ _ _ _ _) as [[e|[u tok]] w1]; [done|].
  cbn [fst snd]. destruct u; try done.
  rewrite download_file_run. cbv zeta.
  destruct (requests_get E _ _ _) as [e|resp] eqn:Hget; [done|].
  destruct ((400 <=? status_code resp) && (status_code resp <? 600)) eqn:Hc;
    [done|].
  intros [= <- _]. eexists _, _, resp. split; [exact Hget|]. split; [done|].
  intros Hst. apply error_class_spec in Hst. congruence.
Qed.

Lemma map_names_replace n (f : dirent -> dirent) d :
  (forall y, d_name y = n -> d_name (f y) = n) ->
  map d_name (map (fun y => if has_name n y then f y else y) d) = map d_name d.
Proof.
  intros Hf. induction d as [|x d IH]; simpl; [done|]. rewrite IH. f_equal.
  destruct (has_name n x) eqn:Hh; [|done].
  apply has_name_eq in Hh. by rewrite Hf.
Qed.

Lemma find_has_name_None n d :
  List.find (has_name n) d = None -> n ∉ map d_name d.
Proof.
  intros Hf Hin. apply list_elem_of_fmap in Hin as (x & -> & Hx).
  apply list_elem_of_In in Hx.
  pose proof (List.find_none _ _ Hf x Hx) as Hn.
  unfold has_name in Hn. by rewrite String.eqb_refl in Hn.
Qed.

(** What a successful write does to the directory. *)
Lemma write_file_effect n c w w' :
  write_file E n c w = (inr tt, w') ->
  NoDup (map d_name (w_dir w)) ->
  NoDup (map d_name (w_dir w')) /\
  (forall x, x ∈ w_dir w' -> d_name x <> n -> x ∈ w_dir w) /\
  exists e, e ∈ w_dir w' /\ d_name e = n /\ d_is_file e = true /\
            d_content e = c /\ d_mtime e = now_mtime E.
Proof.
  rewrite write_file_run. cbv zeta.
  destruct (open_write E n); [done|].
  destruct (List.find (has_name n) (w_dir w)) as [y|] eqn:Hf.
  - destruct (d_is_file y); [|done]. intros [= <-] Hnd. simpl.
    split; [by rewrite map_names_replace|]. split.
    + intros x Hx Hn. apply list_elem_of_fmap in Hx as (z & -> & Hz).
      revert Hn. destruct (has_name n z); simpl; intros Hn; done.
    + apply find_has_name_Some in Hf as [Hin Hn].
      eexists. split.
      * apply list_elem_of_fmap. exists y. split; [|done].
        by rewrite (proj2 (has_name_eq _ _) Hn).
      * done.
  - intros [= <-] Hnd. simpl. split; [|split].
    + rewrite fmap_app. apply NoDup_app. split; [done|]. split.
      * intros m Hm Hm'. apply list_elem_of_singleton in Hm'. subst m.
        by apply find_has_name_None in Hf.
      * apply NoDup_singleton.
    + intros x Hx Hn. apply elem_of_app in Hx as [Hx|Hx]; [done|].
      by apply list_elem_of_singleton in Hx as ->.
    + eexists. split; [apply elem_of_app; right; by left|]. done.
Qed.

(** The strictly newest backup heads the sorted list. *)
Lemma newest_is_kept d e n :
  NoDup (map d_name d) -> e ∈ backups d ->
  (forall x, x ∈ backups d -> d_name x <> d_name e -> d_mtime x < d_mtime e) ->
  0 < n -> e ∈ take (Z.to_nat n) (sorted_mtime_desc (backups d)).
Proof.
  intros Hnd He Hnew Hn.
  pose proof (sorted_mtime_desc_sorted (backups d)) as Hs.
  pose proof (sorted_mtime_desc_perm (backups d)) as Hp.
  assert (He' : e ∈ sorted_mtime_desc (backups d)) by by rewrite Hp.
  destruct (sorted_mtime_desc (backups d)) as [|h t]; [by apply elem_of_nil in He'|].
  destruct (Z.to_nat n) as [|m] eqn:Hm; [lia|]. simpl.
  assert (Hh : h ∈ backups d) by (rewrite <- Hp; left).
  destruct (String.eqb_spec (d_name h) (d_name e)) as [Heq|Hne].
  - assert (h = e) as ->; [|left].
    apply (same_name_same_entry d); [done| | |done].
    + by apply elem_of_backups in Hh as [? _].
    + by apply elem_of_backups in He as [? _].
  - apply elem_of_cons in He' as [->|Ht]; [left|].
    apply StronglySorted_cons in Hs as [Hall _].
    rewrite Forall_forall in Hall. specialize (Hall e Ht).
    specialize (Hnew h Hh Hne). unfold newer_or_equal in Hall. lia.
Qed.

End Fresh.

(** X7. The backup just taken is not pruned away. When the names in the
    output directory are distinct and every backup already there is older
    than the current time, a successful run leaves in the directory a
    regular file with the new backup's name, the current modification time
    and, as content, the untransformed body of a response the fetch
    received, whatever the retention count is. *)
Theorem fresh_backup_survives (E : env) (a : args) (w w' : world) :
  NoDup (map d_name (w_dir w)) ->
  (forall e, e ∈ backups (w_dir w) -> d_mtime e < now_mtime E) ->
  run E a w = (Exit 0, w') ->
  exists e url params resp,
    e ∈ w_dir w' /\ d_name e = backup_name E /\ d_is_file e = true /\
    d_mtime e = now_mtime E /\
    requests_get E url params (negb (no_verify_tls a)) = inr resp /\
    d_content e = content resp.
Proof.
  intros Hnd Hold Hrun. unfold run in Hrun. rewrite main_run in Hrun.
  destruct (read_api_key_only_trace E (api_key a) (api_key_file a) w)
    as (Hd0 & _).
  destruct (read_api_key _ _ _ _) as [[x|key] w0]; simpl in Hd0; [done|].
  destruct (truthy_str key) as [k|]; [|done].
  destruct (ensure_output_dir_only_trace E (out_dir a) w0) as (Hd1 & _).
  destruct (ensure_output_dir _ _ _) as [[x|[]] w1]; simpl in Hd1; [done|].
  destruct (fetch_keeps_files E a k w1) as (Hd2 & _).
  destruct (fetch _ _ _ _) as [[x|[c|]] w2] eqn:Hfetch; simpl in Hd2;
    [done| |done].
  apply fetch_some_body in Hfetch as (url & params & resp & Hget & -> & _).
  destruct (write_file _ _ _ _) as [[x|[]] w3] eqn:Hw; [done|].
  injection Hrun as <-.
  assert (Hdir : w_dir w2 = w_dir w) by congruence.
  rewrite <- Hdir in Hnd, Hold.
  destruct (write_file_effect E _ _ _ _ Hw Hnd)
    as (Hnd3 & Hothers & e & He & Hname & Hfile & Hcont & Hmt).
  exists e, url, params, resp.
  split; [|done].
  set (w4 := with_line w3 ("Wrote " +:+ path_join (out_dir a) (backup_name E))).
  destruct (Z.le_gt_cases (retention a) 0) as [Hle|Hgt].
  { by rewrite enforce_retention_off. }
  apply kept_survive; [done|lia|]. simpl.
  assert (Hb : e ∈ backups (w_dir w3)).
  { apply elem_of_backups. rewrite Hname.
    split; [done|]. split; [apply is_backup_name_stamp|done]. }
  apply newest_is_kept; [done|done| |lia].
  intros x Hx Hne. rewrite Hmt. apply Hold.
  apply elem_of_backups in Hx as (Hx & Hbn & Hf).
  apply elem_of_backups. split; [|done].
  apply Hothers; [done|congruence].
Qed.

Lemma fresh_backup_survives_witness :
  exists e url params resp,
    e ∈ w_dir (run (demo_env 200) (demo_args (Some "k") None 1)
                 (world_of demo_dir)).2 /\
    d_name e = "truenas_config_20261104_010203.tar" /\ d_is_file e = true /\
    d_mtime e = 600 /\
    requests_get (demo_env 200) url params true = inr resp /\
    d_content e = content resp.
Proof.
  apply (fresh_backup_survives (demo_env 200) (demo_args (Some "k") None 1)
           (world_of demo_dir)).
  - apply (bool_decide_unpack _). vm_compute. exact I.
  - intros e He. simpl in He.
    repeat (apply elem_of_cons in He as [->|He]; [reflexivity|]).
    by apply elem_of_nil in He.
  - vm_compute. reflexivity.
Defined.

(** ** What the parser hands on *)
Section Handover.

Lemma first_present_truthy vs v : first_present vs = Some v -> truthy v = true.
Proof. intros H. by apply List.find_some in H as [_ ?]. Qed.

Lemma token_param_default o :
  (forall v, o = Some v -> truthy v = true) ->
  (if truthy (default (VStr "") o) then Some (default (VStr "") o) else None) = o.
Proof. destruct o as [v|]; simpl; [|done]. intros H. by rewrite (H v). Qed.

Lemma token_default_cases o :
  (forall v, o = Some v -> truthy v = true) ->
  default (VStr "") o = VStr "" \/ truthy (default (VStr "") o) = true.
Proof. destruct o as [v|]; simpl; [|by left]. intros H. right. by apply H. Qed.

End Handover.

(** X8. What the reply parser returns is usable as it stands: the URL is
    never [None], empty or otherwise falsy, the token is either truthy or
    exactly the empty string, and the reply was a mapping or a sequence of
    at least two items. *)
Theorem parsed_reply_is_usable (r u tok : value) :
  parse_reply r = inr (u, tok) ->
  truthy u = true /\
  (tok = VStr "" \/ truthy tok = true) /\
  ((exists d, r = VDict d) \/ (exists l, r = VList l /\ (2 <= length l)%nat)).
Proof.
  destruct r as [| | | | |l|d]; try done.
  - destruct l as [|x [|y rest]]; try done.
    rewrite parse_reply_list. destruct (truthy y) eqn:Hy; [|done].
    intros [= <- <-]. split; [done|]. split.
    + apply token_default_cases. intros t. apply first_present_truthy.
    + right. exists (x :: y :: rest). split; [done|simpl; lia].
  - rewrite parse_reply_dict.
    destruct (first_present [dict_get d "url"; _; _]) as [v|] eqn:Hv; [|done].
    intros [= <- <-]. split; [by apply first_present_truthy in Hv|]. split.
    + apply token_default_cases. intros t.
      apply (first_present_truthy
               [dict_get d "token"; dict_get d "auth_token"]).
    + left. by exists d.
Qed.

Lemma parsed_reply_is_usable_witness :
  truthy (VStr "/download/2") = true /\
  (VStr "" = VStr "" \/ truthy (VStr "") = true) /\
  ((exists d, VList [VStr "ok"; VStr "/download/2"] = VDict d) \/
   (exists l, VList [VStr "ok"; VStr "/download/2"] = VList l /\
              (2 <= length l)%nat)).
Proof.
  exact (parsed_reply_is_usable (VList [VStr "ok"; VStr "/download/2"])
           (VStr "/download/2") (VStr "") eq_refl).
Defined.

(** X9. The parser's empty-string default never reaches the wire: the
    fetch carries an [auth_token] query parameter exactly when the reply
    held a present token, and then it is that token. For a mapping it is
    the first present value under [token], [auth_token]; for a sequence it
    is item 2 when present. *)
Theorem auth_token_sent_iff_present
    (E : env) (h u : string) (tok r : value) (v : bool) (w : world) :
  parse_reply r = inr (VStr u, tok) ->
  exists params,
    w_trace (download_file E h (VStr u) tok v w).2
      = w_trace w ++ [EvGet (full_url h u) params v] /\
    (forall d, r = VDict d ->
       params = first_present [dict_get d "token"; dict_get d "auth_token"]) /\
    (forall x y rest, r = VList (x :: y :: rest) ->
       params = first_present (take 1 rest)).
Proof.
  intros Hp. exists (if truthy tok then Some tok else None). split; [|split].
  - rewrite download_file_run. cbv zeta.
    destruct (requests_get E _ _ _) as [e|resp]; [done|].
    by destruct ((400 <=? status_code resp) && (status_code resp <? 600)).
  - intros d ->. rewrite parse_reply_dict in Hp.
    destruct (first_present [dict_get d "url"; _; _]); [|done].
    injection Hp as _ <-. apply token_param_default.
    intros t. apply (first_present_truthy
                       [dict_get d "token"; dict_get d "auth_token"]).
  - intros x y rest ->. rewrite parse_reply_list in Hp.
    destruct (truthy y); [|done]. injection Hp as _ <-.
    apply token_param_default. intros t. apply first_present_truthy.
Qed.

Lemma auth_token_sent_iff_present_witness :
  exists params,
    w_trace (download_file (demo_env 200) "truenas.local" (VStr "/download/2")
               (VStr "") true (world_of [])).2
      = [EvGet "https://truenas.local/download/2" params true] /\
    params = None.
Proof.
  destruct (auth_token_sent_iff_present (demo_env 200) "truenas.local"
              "/download/2" (VStr "") (VList [VStr "ok"; VStr "/download/2"])
              true (world_of []) eq_refl) as (params & Ht & _ & Hl).
  exists params. split; [exact Ht|].
  exact (Hl (VStr "ok") (VStr "/download/2") [] eq_refl).
Defined.

(** X10. A reply whose URL is present but not a string passes the parser
    and stops the run before any HTTP request: [download_file] raises an
    [AttributeError] on it, which the handler of [main] reports, and the
    run exits with status 1 with nothing fetched and nothing written. *)
Theorem non_string_url_exits_1
    (E : env) (a : args) (w w0 w1 w2 : world) (key : option string)
    (k : string) (u tok : value) :
  read_api_key E (api_key a) (api_key_file a) w = (inr key, w0) ->
  truthy_str key = Some k ->
  ensure_output_dir E (out_dir a) w0 = (inr tt, w1) ->
  start_download_session E (host a) k (include_secrets a)
    (negb (no_verify_tls a)) w1 = (inr (u, tok), w2) ->
  (forall s, u <> VStr s) ->
  download_file E (host a) u tok (negb (no_verify_tls a)) w2
    = (inl (AttributeError u), w2) /\
  run E a w = (Exit 1, with_diag w2 (DiagError (AttributeError u))) /\
  w_dir (run E a w).2 = w_dir w.
Proof.
  intros H0 Hk H1 H2 Hu.
  assert (Hdl : download_file E (host a) u tok (negb (no_verify_tls a)) w2
                = (inl (AttributeError u), w2)).
  { destruct u; try done. by destruct (Hu s). }
  assert (Hrun : run E a w
                 = (Exit 1, with_diag w2 (DiagError (AttributeError u)))).
  { unfold run. rewrite main_run, H0, Hk, H1, fetch_run.
    unfold attempt, bind. cbv zeta. rewrite H2. cbv beta iota. cbn [fst snd].
    by rewrite Hdl. }
  split; [done|]. split; [done|].
  rewrite Hrun. simpl.
  destruct (start_download_session_only_trace E (host a) k (include_secrets a)
              (negb (no_verify_tls a)) w1) as (Hd2 & _).
  destruct (ensure_output_dir_only_trace E (out_dir a) w0) as (Hd1 & _).
  destruct (read_api_key_only_trace E (api_key a) (api_key_file a) w)
    as (Hd0 & _).
  rewrite H2 in Hd2. rewrite H1 in Hd1. rewrite H0 in Hd0. simpl in *.
  congruence.
Qed.

Lemma non_string_url_exits_1_witness :
  let r := run numeric_url_env (demo_args (Some "k") None 14)
             (world_of demo_dir) in
  r.1 = Exit 1 /\ w_stderr r.2 = [DiagError (AttributeError (VInt 5))] /\
  w_dir r.2 = demo_dir.
Proof.
  pose (w0 := world_of demo_dir).
  pose (w1 := with_event w0 (EvMkdir "/backups")).
  pose (w2 := with_event
                (with_event
                   (with_event w1
                      (EvConnect "wss://truenas.local/api/current" SslNone))
                   (EvLogin "k"))
                (EvCoreDownload false)).
  destruct (non_string_url_exits_1 numeric_url_env
              (demo_args (Some "k") None 14) w0 w0 w1 w2 (Some "k") "k"
              (VInt 5) (VStr "") eq_refl eq_refl eq_refl eq_refl)
    as (_ & Hrun & Hdir); [done|].
  subst w0 w1 w2. cbv zeta. rewrite Hdir, Hrun. repeat split.
Defined.


(** ** Stripping *)
Section Strip.

Lemma rstrip_idem p s : rstrip p (rstrip p s) = rstrip p s.
Proof.
  induction s as [|c r IH]; [done|]. simpl.
  destruct (rstrip p r) as [|d r'] eqn:Hr.
  - destruct (p c) eqn:Hc; [done|]. simpl. by rewrite Hc.
  - simpl. simpl in IH. by rewrite IH.
Qed.

Lemma rstrip_head p c r :
  p c = false -> rstrip p (String c r) = String c (rstrip p r).
Proof. intros Hc. simpl. destruct (rstrip p r); [by rewrite Hc|done]. Qed.

Lemma lstrip_cases p s :
  lstrip p s = "" \/ exists c r, lstrip p s = String c r /\ p c = false.
Proof.
  induction s as [|c r IH]; [by left|]. simpl.
  destruct (p c) eqn:Hc; [done|]. right. by exists c, r.
Qed.

Lemma strip_idem s : strip (strip s) = strip s.
Proof.
  unfold strip. destruct (lstrip_cases is_space s) as [->|(c & r & -> & Hc)];
    [done|].
  rewrite rstrip_head by done. simpl lstrip. rewrite Hc.
  by rewrite rstrip_head, rstrip_idem.
Qed.

End Strip.

(** ** The events of a run *)
Section Events.
Context (E : env) (a : args) (P : event -> Prop).
Hypothesis P_read : forall p, P (EvReadFile p).
Hypothesis P_mkdir : P (EvMkdir (out_dir a)).
Hypothesis P_connect :
  P (EvConnect (ws_api_url (host a)) (ssl_for a (ws_api_url (host a)))).
Hypothesis P_login : forall k, k <> "" -> strip k = k -> P (EvLogin k).
Hypothesis P_export : P (EvCoreDownload (include_secrets a)).
Hypothesis P_get :
  forall url params, P (EvGet url params (negb (no_verify_tls a))).
Hypothesis P_write : P (EvWrite (backup_name E)).
Hypothesis P_unlink : forall n, is_backup_name n = true -> P (EvUnlink n).

Lemma extends_nil w : extends w w [].
Proof. unfold extends. by rewrite app_nil_r. Qed.

Lemma read_api_key_events x y w :
  exists l, extends w (read_api_key E x y w).2 l /\ Forall P l.
Proof.
  unfold read_api_key, bind, log.
  destruct (truthy_str x); [exists []; split; [apply extends_nil|done]|].
  destruct (truthy_str y) as [p|].
  - cbv beta zeta iota. rewrite lift_sum_run. exists [EvReadFile p].
    split; [by destruct (open_read E p)|]. by repeat constructor.
  - exists []. split; [|done].
    destruct (truthy_str (environ_TRUENAS_API_KEY E)); apply extends_nil.
Qed.

Lemma truthy_str_strip s k :
  truthy_str (Some (strip s)) = Some k -> k <> "" /\ strip k = k.
Proof.
  simpl. destruct (strip s) as [|c r] eqn:Hs; [done|]. simpl.
  intros [= <-]. split; [done|]. rewrite <- Hs. apply strip_idem.
Qed.

(** The key [main] goes on with is not empty and is stripped. *)
Lemma read_api_key_clean x y w key w0 k :
  read_api_key E x y w = (inr key, w0) -> truthy_str key = Some k ->
  k <> "" /\ strip k = k.
Proof.
  unfold read_api_key, bind, log.
  destruct (truthy_str x) as [s|].
  { intros [= <- _]. apply truthy_str_strip. }
  destruct (truthy_str y) as [p|].
  - cbv beta zeta iota. rewrite lift_sum_run.
    destruct (open_read E p) as [e|c]; [done|].
    intros [= <- _]. apply truthy_str_strip.
  - destruct (truthy_str (environ_TRUENAS_API_KEY E)) as [v|].
    + intros [= <- _]. apply truthy_str_strip.
    + by intros [= <- _].
Qed.

Lemma ssl_for_spec :
  (if startswith (ws_api_url (host a)) "wss://"
   then if negb (negb (no_verify_tls a)) then SslUnverified else SslNone
   else SslNone) = ssl_for a (ws_api_url (host a)).
Proof.
  unfold ssl_for.
  by destruct (startswith _ _), (no_verify_tls a).
Qed.

Lemma start_download_session_events k w :
  k <> "" -> strip k = k ->
  exists l, extends w (start_download_session E (host a) k (include_secrets a)
                         (negb (no_verify_tls a)) w).2 l /\ Forall P l.
Proof.
  intros Hk Hs. unfold start_download_session, bind, log, extends.
  cbv beta zeta iota. rewrite ssl_for_spec, lift_err_run.
  destruct (client_connect E _ _).
  { eexists [_]. split; [reflexivity|]. by repeat constructor. }
  cbv beta iota. rewrite lift_sum_run. destruct (call_login E _ _).
  { eexists [_; _]. split; [simpl; by rewrite <- app_assoc|].
    repeat constructor; auto. }
  cbv beta iota. rewrite lift_sum_run. destruct (call_core_download E _ _).
  { eexists [_; _; _]. split; [simpl; by rewrite <- !app_assoc|].
    repeat constructor; auto. }
  cbv beta iota. rewrite lift_sum_run.
  eexists [_; _; _]. split; [simpl; by rewrite <- !app_assoc|].
  repeat constructor; auto.
Qed.

Lemma download_file_events u t w :
  exists l, extends w (download_file E (host a) u t (negb (no_verify_tls a))
                         w).2 l /\ Forall P l.
Proof.
  destruct u; try (exists []; split; [apply extends_nil|done]).
  rewrite download_file_run. cbv zeta. eexists [_]. split.
  - unfold extends.
    destruct (requests_get E _ _ _) as [e|resp]; [reflexivity|].
    by destruct ((400 <=? status_code resp) && (status_code resp <? 600)).
  - by repeat constructor.
Qed.

Lemma attempt_events k w :
  k <> "" -> strip k = k ->
  exists l, extends w (attempt E a k w).2 l /\ Forall P l.
Proof.
  intros Hk Hs. unfold attempt, bind. cbv zeta.
  destruct (start_download_session_events k w Hk Hs) as (l1 & H1 & HP1).
  destruct (start_download_session _ _ _ _ _ _) as [[e|dl] w1]; [by exists l1|].
  destruct (download_file_events dl.1 dl.2 w1) as (l2 & H2 & HP2).
  exists (l1 ++ l2). split; [|by apply Forall_app].
  eapply extends_trans; [exact H1|].
  by destruct (download_file _ _ _ _ _ _) as [[e|c] w2].
Qed.

Lemma fetch_events k w :
  k <> "" -> strip k = k ->
  exists l, extends w (fetch E a k w).2 l /\ Forall P l.
Proof.
  intros Hk Hs. destruct (attempt_events k w Hk Hs) as (l & Hl & HP).
  exists l. split; [|done]. rewrite fetch_run.
  by destruct (attempt E a k w) as [[e|r] w'].
Qed.

Lemma enforce_retention_events directory n w :
  exists l, extends w (enforce_retention directory n w).2 l /\ Forall P l.
Proof.
  destruct (Z.le_gt_cases n 0) as [Hn|Hn].
  - rewrite enforce_retention_off by done. exists [].
    split; [apply extends_nil|done].
  - rewrite enforce_retention_on, prune_run by lia.
    eexists. split; [reflexivity|]. apply Forall_fmap, Forall_forall.
    intros o Ho. simpl. apply P_unlink.
    assert (Hf : o ∈ sorted_mtime_desc (backups (w_dir w))).
    { rewrite <- (take_drop (Z.to_nat n)). apply elem_of_app. by right. }
    rewrite sorted_mtime_desc_perm in Hf.
    by apply elem_of_backups in Hf as (_ & ? & _).
Qed.

(** Every event of a run is one of: reading the key file, creating the
    output directory, connecting to the normalised address with the
    context the flag asks for, logging in with a clean key, the export
    call with the flag given, a fetch with the verification the flag asks
    for, writing the new backup, and unlinking a name that matches the
    backup pattern. *)
Lemma run_events w :
  exists l, extends w (run E a w).2 l /\ Forall P l.
Proof.
  assert (Hsnd : (run E a w).2 = (main E a w).2).
  { unfold run. by destruct (main E a w) as [[e|c] w']. }
  rewrite Hsnd, main_run.
  destruct (read_api_key_events (api_key a) (api_key_file a) w)
    as (l0 & H0 & HP0).
  pose proof (read_api_key_clean (api_key a) (api_key_file a) w) as Hclean.
  destruct (read_api_key _ _ _ _) as [[e|key] w0]; simpl in H0; [by exists l0|].
  destruct (truthy_str key) as [k|] eqn:Hkey; [|by exists l0].
  destruct (Hclean key w0 k eq_refl Hkey) as [Hk Hs]. clear Hclean.
  pose proof (ensure_output_dir_run E (out_dir a) w0) as H1.
  assert (H1' : extends w (ensure_output_dir E (out_dir a) w0).2
                  (l0 ++ [EvMkdir (out_dir a)])).
  { eapply extends_trans; [exact H0|]. by rewrite H1. }
  assert (HP1 : Forall P (l0 ++ [EvMkdir (out_dir a)])).
  { apply Forall_app. split; [done|]. by repeat constructor. }
  clear H1. destruct (ensure_output_dir _ _ _) as [[e|[]] w1]; simpl in H1';
    [by eexists|].
  destruct (fetch_events k w1 Hk Hs) as (l2 & H2 & HP2).
  pose proof (extends_trans _ _ _ _ _ H1' H2) as H2'. clear H2.
  assert (HP2' : Forall P ((l0 ++ [EvMkdir (out_dir a)]) ++ l2))
    by by apply Forall_app.
  destruct (fetch _ _ _ _) as [[e|[c|]] w2]; simpl in H2';
    [by eexists| |by eexists].
  pose proof (write_file_calls E (backup_name E) c w2) as H3.
  pose proof (extends_trans _ _ _ _ _ H2' H3) as H3'. clear H3.
  assert (HP3 : Forall P (((l0 ++ [EvMkdir (out_dir a)]) ++ l2)
                          ++ [EvWrite (backup_name E)])).
  { apply Forall_app. split; [done|]. by repeat constructor. }
  destruct (write_file _ _ _ _) as [[e|[]] w3]; simpl in H3'; [by eexists|].
  destruct (enforce_retention_events (out_dir a) (retention a)
              (with_line w3
                 ("Wrote " +:+ path_join (out_dir a) (backup_name E))))
    as (l4 & H4 & HP4).
  eexists. split.
  - simpl. eapply extends_trans; [|exact H4]. exact H3'.
  - by apply Forall_app.
Qed.

End Events.

(** X11. TLS verification is disabled only on request, and then on both
    channels: in every run the connection is made to the normalised
    control address, with an unverified TLS context exactly when
    [--no-verify-tls] is given and the address is a [wss://] one, and
    every fetch verifies certificates exactly when the flag is absent. *)
Theorem tls_flag_is_respected (E : env) (a : args) (w : world) :
  exists l, extends w (run E a w).2 l /\ Forall (tls_consistent a) l.
Proof. by apply run_events. Qed.

(** X12. The appliance only ever sees a usable key: every login a run
    makes carries a key that is not empty and has no white space around
    it, whichever source the key came from. *)
Theorem login_key_is_clean (E : env) (a : args) (w : world) :
  exists l, extends w (run E a w).2 l /\ Forall key_is_clean l.
Proof. by apply run_events. Qed.

(** ** Edges of credential resolution and of the driver *)

(** X13. An explicit key made of white space only shadows the other
    sources: it is not empty, so neither the key file nor the environment
    is looked at, yet it strips to nothing, and the run ends with exit
    status 2 without having read or called anything. *)
Theorem blank_explicit_key_exits_2 (E : env) (a : args) (w : world) (k : string) :
  api_key a = Some k -> k <> "" -> strip k = "" ->
  read_api_key E (api_key a) (api_key_file a) w = (inr (Some ""), w) /\
  run E a w = (Exit 2, with_diag w DiagNoKey).
Proof.
  intros Ha Hk Hs.
  assert (Hr : read_api_key E (api_key a) (api_key_file a) w
               = (inr (Some ""), w)).
  { rewrite Ha, read_api_key_explicit by done. by rewrite Hs. }
  split; [done|]. unfold run. by rewrite main_run, Hr.
Qed.

Lemma blank_explicit_key_exits_2_witness :
  run (demo_env 200) (demo_args (Some "  ") (Some "key.txt") 14) (world_of [])
  = (Exit 2, with_diag (world_of []) DiagNoKey).
Proof.
  exact (proj2 (blank_explicit_key_exits_2 (demo_env 200)
                  (demo_args (Some "  ") (Some "key.txt") 14) (world_of [])
                  "  " eq_refl ltac:(discriminate) eq_refl)).
Defined.

(** X14. A key file that cannot be read is not reported by [main]: the
    exception of [open] leaves [read_api_key] and the run uncaught, before
    the output directory is created or anything is called, and the
    environment variable is not tried as a fallback. *)
Theorem unreadable_key_file_is_uncaught
    (E : env) (a : args) (w : world) (p : string) (e : exn) :
  truthy_str (api_key a) = None ->
  api_key_file a = Some p -> p <> "" ->
  open_read E p = inl e ->
  run E a w = (Traceback e, with_event w (EvReadFile p)).
Proof.
  intros Ha Hf Hp He. unfold run.
  rewrite main_run, Hf, read_api_key_file by done. by rewrite He.
Qed.

Lemma unreadable_key_file_is_uncaught_witness :
  run (demo_env 200) (demo_args None (Some "missing.key") 14) (world_of [])
  = (Traceback (OSError "FileNotFoundError"),
     with_event (world_of []) (EvReadFile "missing.key")).
Proof.
  apply (unreadable_key_file_is_uncaught (demo_env 200)
           (demo_args None (Some "missing.key") 14) (world_of [])
           "missing.key" (OSError "FileNotFoundError"));
    [reflexivity|reflexivity|discriminate|reflexivity].
Defined.

(** X15. The output directory is created before anything is sent: when it
    cannot be created the exception leaves [main] uncaught, no connection
    having been attempted, and the only event after key resolution is the
    [mkdir] itself. *)
Theorem mkdir_failure_is_uncaught
    (E : env) (a : args) (w w0 : world) (key : option string)
    (k : string) (e : exn) :
  read_api_key E (api_key a) (api_key_file a) w = (inr key, w0) ->
  truthy_str key = Some k ->
  mkdir_parents E (out_dir a) = Some e ->
  run E a w = (Traceback e, with_event w0 (EvMkdir (out_dir a))).
Proof.
  intros H0 Hk Hm. unfold run.
  by rewrite main_run, H0, Hk, ensure_output_dir_run, Hm.
Qed.

Lemma mkdir_failure_is_uncaught_witness :
  run readonly_env (demo_args (Some "k") None 14) (world_of [])
  = (Traceback (OSError "EROFS"), with_event (world_of []) (EvMkdir "/backups")).
Proof.
  exact (mkdir_failure_is_uncaught readonly_env (demo_args (Some "k") None 14)
           (world_of []) (world_of []) (Some "k") "k" (OSError "EROFS")
           eq_refl eq_refl eq_refl).
Defined.

(** ** The two channels *)

(** X16. The control channel and the download channel address the same
    host with the same security: for a host given with one of the four
    schemes and something but slashes after it, [build_ws_base] and
    [build_http_base] differ in the scheme only, [ws://] going with
    [http://] and [wss://] with [https://]; a bare host gets [wss://] and
    [https://] in front of the same text. *)
Theorem channels_agree (host : string) :
  (forall r, strip host = "ws://" +:+ r -> rstrip is_slash r <> "" ->
     build_ws_base host = "ws://" +:+ rstrip is_slash r /\
     build_http_base host = "http://" +:+ rstrip is_slash r) /\
  (forall r, strip host = "http://" +:+ r -> rstrip is_slash r <> "" ->
     build_ws_base host = "ws://" +:+ rstrip is_slash r /\
     build_http_base host = "http://" +:+ rstrip is_slash r) /\
  (forall r, strip host = "wss://" +:+ r -> rstrip is_slash r <> "" ->
     build_ws_base host = "wss://" +:+ rstrip is_slash r /\
     build_http_base host = "https://" +:+ rstrip is_slash r) /\
  (forall r, strip host = "https://" +:+ r -> rstrip is_slash r <> "" ->
     build_ws_base host = "wss://" +:+ rstrip is_slash r /\
     build_http_base host = "https://" +:+ rstrip is_slash r) /\
  (startswith (strip host) "ws://" = false ->
   startswith (strip host) "wss://" = false ->
   startswith (strip host) "http://" = false ->
   startswith (strip host) "https://" = false ->
   build_ws_base host = "wss://" +:+ strip host /\
   build_http_base host = "https://" +:+ strip host).
Proof.
  unfold build_ws_base, build_http_base.
  split; [|split; [|split; [|split]]].
  - intros r -> Hr. split; [|done].
    change (rstrip is_slash ("ws://" +:+ r) = "ws://" +:+ rstrip is_slash r).
    by apply rstrip_app.
  - intros r -> Hr. split; [done|].
    change (rstrip is_slash ("http://" +:+ r) = "http://" +:+ rstrip is_slash r).
    by apply rstrip_app.
  - intros r -> Hr. split; [|done].
    change (rstrip is_slash ("wss://" +:+ r) = "wss://" +:+ rstrip is_slash r).
    by apply rstrip_app.
  - intros r -> Hr. split; [done|].
    change (rstrip is_slash ("https://" +:+ r) = "https://" +:+ rstrip is_slash r).
    by apply rstrip_app.
  - by intros -> -> -> ->.
Qed.

Example channels_agree_on_samples :
  build_ws_base "http://nas:8080/" = "ws://nas:8080" /\
  build_http_base "ws://nas:8080/" = "http://nas:8080" /\
  build_ws_base " https://nas " = "wss://nas" /\
  build_http_base "wss://nas" = "https://nas".
Proof. repeat split. Qed.

(** ** The order of the calls *)
Section Order.
Context (E : env).












End Order.


(** ** The output of a successful run *)

(** X18. A successful run is silent on the error stream and prints one
    line: when [main] returns 0, standard output has gained exactly the
    line [Wrote <path>], the path being the output directory joined with
    the new backup's name, and the error stream is as before, also when
    some [unlink] failed during pruning. *)
Theorem successful_run_prints_one_line (E : env) (a : args) (w w' : world) :
  run E a w = (Exit 0, w') ->
  w_stdout w'
    = w_stdout w ++ ["Wrote " +:+ path_join (out_dir a) (backup_name E)] /\
  w_stderr w' = w_stderr w.
Proof.
  intros Hrun. unfold run in Hrun. rewrite main_run in Hrun.
  destruct (read_api_key_only_trace E (api_key a) (api_key_file a) w)
    as (_ & Ho0 & He0).
  destruct (read_api_key _ _ _ _) as [[x|key] w0]; simpl in Ho0, He0; [done|].
  destruct (truthy_str key) as [k|]; [|done].
  destruct (ensure_output_dir_only_trace E (out_dir a) w0) as (_ & Ho1 & He1).
  destruct (ensure_output_dir _ _ _) as [[x|[]] w1]; simpl in Ho1, He1; [done|].
  pose proof (fetch_run E a k w1) as Hf.
  destruct (attempt_only_trace E a k w1) as (_ & Ho2 & He2).
  destruct (fetch _ _ _ _) as [[x|[c|]] w2]; [done| |done].
  destruct (attempt E a k w1) as [[x|r] w2'] eqn:Ha; [done|].
  injection Hf as _ ->. simpl in Ho2, He2.
  pose proof (write_file_run E (backup_name E) c w2') as Hw.
  destruct (write_file _ _ _ _) as [[x|[]] w3]; [done|].
  assert (Hw3 : w_stdout w3 = w_stdout w2' /\ w_stderr w3 = w_stderr w2').
  { cbv zeta in Hw. destruct (open_write E (backup_name E)); [done|].
    destruct (List.find _ _) as [y|]; [destruct (d_is_file y); [|done]|];
      by injection Hw as ->. }
  destruct Hw3 as [Ho3 He3]. injection Hrun as <-.
  set (w4 := with_line w3 ("Wrote " +:+ path_join (out_dir a) (backup_name E))).
  assert (Hkeep : w_stdout (enforce_retention (out_dir a) (retention a) w4).2
                  = w_stdout w4 /\
                  w_stderr (enforce_retention (out_dir a) (retention a) w4).2
                  = w_stderr w4).
  { destruct (Z.le_gt_cases (retention a) 0) as [Hle|Hgt].
    - by rewrite enforce_retention_off.
    - by rewrite enforce_retention_on, prune_run by lia. }
  destruct Hkeep as [-> ->]. simpl. split; congruence.
Qed.

Lemma successful_run_prints_one_line_witness :
  let r := run (demo_env 200) (demo_args (Some "k") None 1)
             (world_of locked_dir) in
  w_stdout r.2 = ["Wrote /backups/truenas_config_20261104_010203.tar"] /\
  w_stderr r.2 = [].
Proof.
  apply (successful_run_prints_one_line (demo_env 200)
           (demo_args (Some "k") None 1) (world_of locked_dir)).
  vm_compute. reflexivity.
Defined.
